(** * LTV and risk profiling: the analytics pipeline, embedded and verified

    The development follows the two scripts of the repository:

    - [scripts/generate_customer_analytics.py] joins the customer, policy,
      claim and fraud tables into one row per customer (module
      [GenerateCustomerAnalytics]);
    - [scripts/customer_analytics.py] derives lifetime value, loss ratio and
      risk score from that table, assigns a segment to every customer and
      writes the sorted result (module [CustomerAnalytics]).

    Numeric columns are pandas [float64] columns.  They are modelled by
    Rocq's primitive binary64 floats, so that [NaN] (the missing value of
    pandas) and the comparisons of IEEE 754 behave as they do in the scripts.
    A table is the list of its rows, in row order. *)

From Stdlib Require Import ZArith List Bool String Floats Permutation Sorted Lia.
Import ListNotations.


(** ** Binary64 helpers *)

Module F64.
Local Open Scope float_scope.

(** Python's [x >= y] and [x > y] on floats. *)
Definition geb (x y : float) : bool := y <=? x.
Definition gtb (x y : float) : bool := y <? x.

(** Conversion of an integer (a count, a number of days) to a float. *)
Definition of_Z (z : Z) : float := SF2Prim (binary_normalize prec emax z 0 false).
Definition of_nat (n : nat) : float := of_Z (Z.of_nat n).

(** The outcome of a comparison read as "less or equal" and as "less";
    [None] is the outcome of a comparison with NaN. *)
Definition le_cmp (c : option comparison) : bool :=
  match c with Some Lt | Some Eq => true | _ => false end.

Definition lt_cmp (c : option comparison) : bool :=
  match c with Some Lt => true | _ => false end.
End F64.

(** ** The numpy and pandas primitives the scripts call *)

Module Np.
Local Open Scope float_scope.
Import F64.

(** [Series.fillna(v)]. *)
Definition fillna (v x : float) : float := if is_nan x then v else x.

Definition fillna_obj {A} (v : A) (x : option A) : A :=
  match x with Some a => a | None => v end.

(** [Series.replace(0, np.nan)]. *)
Definition replace_zero_nan (x : float) : float := if x =? 0 then nan else x.

(** [np.where(cond, a, b)], one row. *)
Definition where_ {A} (cond : bool) (a b : A) : A := if cond then a else b.

(** [np.clip(x, lo, hi)] on a Series: a missing value stays missing, a value
    below [lo] becomes [lo], a value above [hi] becomes [hi]. *)
Definition clip (x lo hi : float) : float :=
  if is_nan x then x
  else if x <? lo then lo
  else if hi <? x then hi
  else x.

(** [Series.clip(lower=lo)]. *)
Definition clip_lower (x lo : float) : float :=
  if is_nan x then x else if x <? lo then lo else x.

(** [np.select(condlist, choicelist, default)], one row: the choice of the
    first condition that holds, the default when none does. *)
Fixpoint select {A} (condlist : list bool) (choicelist : list A) (default : A) : A :=
  match condlist, choicelist with
  | c :: cs, v :: vs => if c then v else select cs vs default
  | _, _ => default
  end.

(** Reductions skip missing values, as pandas does. *)
Definition dropna (xs : list float) : list float :=
  filter (fun x => negb (is_nan x)) xs.

(** The group reductions of pandas add with a running compensation for the
    rounding error (Kahan's summation); a compensation that is not a number,
    as an infinite value leaves it, is dropped. *)
Definition kahan_step (acc : float * float) (val : float) : float * float :=
  let (sumx, compensation) := acc in
  let y := val - compensation in
  let t := sumx + y in
  let c := t - sumx - y in
  (t, if is_nan c then 0 else c).

(** ['sum']: the sum of an empty or all-missing group is 0. *)
Definition sum (xs : list float) : float :=
  fst (fold_left kahan_step (dropna xs) (0, 0)).

(** ['mean']: the mean of an empty or all-missing group is NaN. *)
Definition mean (xs : list float) : float :=
  match dropna xs with
  | [] => nan
  | ys => sum ys / of_nat (List.length ys)
  end.

(** ['max'] of a boolean column that may hold missing values. *)
Definition max_bool (xs : list (option bool)) : option bool :=
  fold_left (fun acc x =>
               match acc, x with
               | None, _ => x
               | _, None => acc
               | Some a, Some b => Some (a || b)
               end) xs None.

(** ['min'] of a datetime column, [None] being NaT. *)
Definition min_date (xs : list (option Z)) : option Z :=
  fold_left (fun acc x =>
               match acc, x with
               | None, _ => x
               | _, None => acc
               | Some a, Some b => Some (Z.min a b)
               end) xs None.

(** Insertion sort; [le x y] says that [x] may come before [y]. *)
Fixpoint insert_by {A} (le : A -> A -> bool) (x : A) (l : list A) : list A :=
  match l with
  | [] => [x]
  | y :: l' => if le x y then x :: l else y :: insert_by le x l'
  end.

Definition sort_by {A} (le : A -> A -> bool) (l : list A) : list A :=
  fold_right (insert_by le) [] l.

(** The distinct values of a column, in order of first appearance. *)
Fixpoint unique_by {A} (eqb : A -> A -> bool) (l : list A) : list A :=
  match l with
  | [] => []
  | x :: l' => x :: filter (fun y => negb (eqb y x)) (unique_by eqb l')
  end.

(** [df.groupby(key)]: one group per distinct key, keys in sorted order,
    the rows of a group in table order.  Rows whose key is missing are
    dropped. *)
Definition groupby {A} (key : A -> option string) (rows : list A)
  : list (string * list A) :=
  let present := flat_map (fun r => match key r with Some k => [k] | None => [] end) rows in
  map (fun k => (k, filter (fun r => match key r with
                                     | Some k' => String.eqb k' k
                                     | None => false
                                     end) rows))
      (sort_by String.leb (unique_by String.eqb present)).

(** [pd.merge(left, right, on=key, how='left')]: every left row, in order,
    once per matching right row, and once with the right columns missing
    when no right row matches. *)
Definition key_matches {B} (kr : B -> string) (k : option string) (b : B) : bool :=
  match k with
  | Some k => String.eqb (kr b) k
  | None => false
  end.

Definition merge_left {A B} (kl : A -> option string) (kr : B -> string)
           (left : list A) (right : list B) : list (A * option B) :=
  flat_map (fun a =>
              match filter (key_matches kr (kl a)) right with
              | [] => [(a, None)]
              | ms => map (fun b => (a, Some b)) ms
              end) left.

(** [Series.value_counts().to_dict()]: value to count, most frequent
    first. *)
Definition value_counts (xs : list string) : list (string * nat) :=
  sort_by (fun a b => Nat.leb (snd b) (snd a))
          (map (fun v => (v, List.length (filter (String.eqb v) xs)))
               (unique_by String.eqb xs)).

(** A missing column of an unmatched row. *)
Definition col {B} (f : B -> float) (r : option B) : float :=
  match r with Some b => f b | None => nan end.
End Np.

(** ** The input tables

    Dates are timestamps in nanoseconds, [None] being pandas' [NaT]. *)

Module Customer.
Record t := {
  customer_id : string; name : string; age : float; email : string;
  city : string; registration_date : option Z }.
End Customer.

Module Policy.
Record t := {
  policy_id : string; customer_id : string; status : string;
  annual_premium : float; coverage_amount : float; policy_type : string;
  start_date : option Z }.
End Policy.

Module Claim.
Record t := {
  claim_id : string; policy_id : string; claim_amount : float;
  status : string; claim_date : option Z }.
End Claim.

Module Fraud.
Record t := {
  claim_id : string; is_fraudulent : bool; confidence_score : float;
  detection_date : option Z }.
End Fraud.

(** The clock of the machine: [pd.to_datetime('today')] reads it, and every
    reading may give a later time than the one before. *)
Record World := { clock : nat -> Z; reads : nat }.

Definition to_datetime_today (w : World) : Z * World :=
  (clock w (reads w), {| clock := clock w; reads := S (reads w) |}).

(** The table written by [generate_customer_analytics.py] and read back by
    [customer_analytics.py]: one row per customer, with the columns of
    [final_columns].  The object columns are missing ([None]) for a customer
    without policies. *)
Module Analytics.
Record t := {
  customer_id : string; name : string; age : float; email : string;
  city : string; registration_date : option Z;
  customer_tenure_days : float; policy_tenure_days : float;
  total_policies : float; active_policies : float;
  policy_types : option (list (string * nat));
  total_claims : float; total_claimed_amount : float; avg_claim_amount : float;
  fraud_detected : option bool; detection_count : float; avg_confidence : float;
  claims_per_policy : float; fraud_rate : float;
  avg_annual_premium : float; total_coverage : float;
  policy_ids : option (list string) }.
End Analytics.

(** ** [scripts/generate_customer_analytics.py] *)

Module GenerateCustomerAnalytics.
Local Open Scope float_scope.
Import F64.

(** The four tables of [load_data]. *)
Record Inputs := {
  customers : list Customer.t; policies : list Policy.t;
  claims : list Claim.t; fraud : list Fraud.t }.

(** [(current_date - date).dt.days]: whole days, rounded down; missing for
    a missing date. *)
Definition days_since (current_date : Z) (date : option Z) : float :=
  match date with
  | Some d => of_Z ((current_date - d) / 86400000000000)
  | None => nan
  end.

(** A customer row with the column [customer_tenure_days] added. *)
Record CustomerT := { base : Customer.t; customer_tenure_days : float }.

Record FirstPolicy := { fp_customer_id : string; fp_policy_tenure_days : float }.

Record Preprocessed := {
  p_customers : list CustomerT; p_policies : list Policy.t;
  p_claims : list Claim.t; p_fraud : list Fraud.t;
  p_first_policy : list FirstPolicy }.

Definition preprocess_data (i : Inputs) (w : World) : Preprocessed * World :=
  let (current_date, w') := to_datetime_today w in
  let customers' :=
    map (fun c => {| base := c;
                     customer_tenure_days :=
                       days_since current_date (Customer.registration_date c) |})
        (customers i) in
  let first_policy :=
    map (fun g => {| fp_customer_id := fst g;
                     fp_policy_tenure_days :=
                       days_since current_date
                                  (Np.min_date (map Policy.start_date (snd g))) |})
        (Np.groupby (fun p => Some (Policy.customer_id p)) (policies i)) in
  ({| p_customers := customers'; p_policies := policies i;
      p_claims := claims i; p_fraud := fraud i;
      p_first_policy := first_policy |}, w').

(** *** The rollups of [create_customer_analytics] *)

Record PolicyMetrics := {
  pm_customer_id : string; pm_total_policies : float; pm_active_policies : float;
  pm_avg_annual_premium : float; pm_total_coverage : float;
  pm_policy_types : list (string * nat); pm_policy_ids : list string }.

Record ClaimsMetrics := {
  cm_policy_id : string; cm_total_claims : float; cm_total_claimed_amount : float;
  cm_avg_claim_amount : float; cm_claim_statuses : list (string * nat) }.

Record FraudMetrics := {
  fm_claim_id : string; fm_fraud_detected : bool; fm_detection_count : float;
  fm_avg_confidence : float }.

Record CustomerClaims := {
  cc_customer_id : string; cc_total_claims : float;
  cc_total_claimed_amount : float; cc_avg_claim_amount : float }.

Record CustomerFraud := {
  cf_customer_id : string; cf_fraud_detected : option bool;
  cf_detection_count : float; cf_avg_confidence : float }.

Definition bool_to_float (b : bool) : float := if b then 1 else 0.

Definition policy_metrics (policies : list Policy.t) : list PolicyMetrics :=
  map (fun g =>
         let x := snd g in
         {| pm_customer_id := fst g;
            pm_total_policies := of_nat (List.length x);
            pm_active_policies :=
              of_nat (List.length (filter (fun p => String.eqb (Policy.status p) "ACTIVE") x));
            pm_avg_annual_premium := Np.mean (map Policy.annual_premium x);
            pm_total_coverage := Np.sum (map Policy.coverage_amount x);
            pm_policy_types := Np.value_counts (map Policy.policy_type x);
            pm_policy_ids := map Policy.policy_id x |})
      (Np.groupby (fun p => Some (Policy.customer_id p)) policies).

Definition claims_metrics (claims : list Claim.t) : list ClaimsMetrics :=
  map (fun g =>
         let x := snd g in
         {| cm_policy_id := fst g;
            cm_total_claims := of_nat (List.length x);
            cm_total_claimed_amount := Np.sum (map Claim.claim_amount x);
            cm_avg_claim_amount := Np.mean (map Claim.claim_amount x);
            cm_claim_statuses := Np.value_counts (map Claim.status x) |})
      (Np.groupby (fun c => Some (Claim.policy_id c)) claims).

Definition fraud_metrics (fraud : list Fraud.t) : list FraudMetrics :=
  map (fun g =>
         let x := snd g in
         {| fm_claim_id := fst g;
            fm_fraud_detected := existsb Fraud.is_fraudulent x;
            fm_detection_count := Np.sum (map (fun f => bool_to_float (Fraud.is_fraudulent f)) x);
            fm_avg_confidence := Np.mean (map Fraud.confidence_score x) |})
      (Np.groupby (fun f => Some (Fraud.claim_id f)) fraud).

(** [policies[['policy_id', 'customer_id']].drop_duplicates()]. *)
Definition policy_customer_map (policies : list Policy.t) : list (string * string) :=
  Np.unique_by (fun a b => String.eqb (fst a) (fst b) && String.eqb (snd a) (snd b))
               (map (fun p => (Policy.policy_id p, Policy.customer_id p)) policies).

Definition customer_claims (policies : list Policy.t) (claims : list Claim.t)
  : list CustomerClaims :=
  let policy_claims :=
    Np.merge_left (fun pc => Some (fst pc)) cm_policy_id
                  (policy_customer_map policies) (claims_metrics claims) in
  map (fun g =>
         let x := map snd (snd g) in
         {| cc_customer_id := fst g;
            cc_total_claims := Np.sum (map (Np.col cm_total_claims) x);
            cc_total_claimed_amount := Np.sum (map (Np.col cm_total_claimed_amount) x);
            cc_avg_claim_amount := Np.mean (map (Np.col cm_avg_claim_amount) x) |})
      (Np.groupby (fun r => Some (snd (fst r))) policy_claims).

Definition customer_fraud_metrics (policies : list Policy.t) (claims : list Claim.t)
           (fraud : list Fraud.t) : list CustomerFraud :=
  let claims_fraud :=
    Np.merge_left (fun c => Some (fst c)) fm_claim_id
                  (map (fun c => (Claim.claim_id c, Claim.policy_id c)) claims)
                  (fraud_metrics fraud) in
  let policy_fraud :=
    Np.merge_left (fun r => Some (snd (fst r))) fst
                  claims_fraud (policy_customer_map policies) in
  map (fun g =>
         let x := map (fun r => snd (fst r)) (snd g) in
         {| cf_customer_id := fst g;
            cf_fraud_detected := Np.max_bool (map (option_map fm_fraud_detected) x);
            cf_detection_count := Np.sum (map (Np.col fm_detection_count) x);
            cf_avg_confidence := Np.mean (map (Np.col fm_avg_confidence) x) |})
      (Np.groupby (fun r => option_map snd (snd r)) policy_fraud).

(** *** The merges *)

(** A row of [customer_metrics]: the policy rollup of a customer with its
    claim rollup, its fraud rollup and its policy tenure, each missing when
    the left join found no match. *)
Definition CustomerMetrics : Type :=
  ((PolicyMetrics * option CustomerClaims) * option CustomerFraud) * option FirstPolicy.

Definition cmr_policy (r : CustomerMetrics) : PolicyMetrics := fst (fst (fst r)).
Definition cmr_claims (r : CustomerMetrics) : option CustomerClaims := snd (fst (fst r)).
Definition cmr_fraud (r : CustomerMetrics) : option CustomerFraud := snd (fst r).
Definition cmr_first (r : CustomerMetrics) : option FirstPolicy := snd r.

Definition customer_metrics (p : Preprocessed) : list CustomerMetrics :=
  (* 5.1 *)
  let m1 := Np.merge_left (fun r => Some (pm_customer_id r)) cc_customer_id
              (policy_metrics (p_policies p))
              (customer_claims (p_policies p) (p_claims p)) in
  (* 5.2 *)
  let m2 := Np.merge_left (fun r => Some (pm_customer_id (fst r))) cf_customer_id
              m1 (customer_fraud_metrics (p_policies p) (p_claims p) (p_fraud p)) in
  (* 5.3 *)
  Np.merge_left (fun r => Some (pm_customer_id (fst (fst r)))) fp_customer_id
              m2 (p_first_policy p).

(** Step 6 fills the columns whose dtype is numeric, and only those.  The
    counts and the tenures are numeric whatever the tables hold.  The other
    rollups take the dtype of the column they are computed from, and a table
    read from a file with a header and no rows has columns of dtype object:
    the premium and coverage rollups are numeric when the policy table has
    rows, the claim amounts when the claim table has, the detection count and
    the confidence when the fraud table has. *)
Record Dtypes := {
  policy_rollups_numeric : bool; claim_rollups_numeric : bool;
  fraud_rollups_numeric : bool }.

Definition has_rows {A} (table : list A) : bool :=
  match table with
  | [] => false
  | _ :: _ => true
  end.

Definition select_dtypes (p : Preprocessed) : Dtypes :=
  {| policy_rollups_numeric := has_rows (p_policies p);
     claim_rollups_numeric := has_rows (p_claims p);
     fraud_rollups_numeric := has_rows (p_fraud p) |}.

(** Steps 6 to 8 on one row of the last merge: the numeric columns are
    filled with 0, the two rates are derived and the final columns are
    selected. *)
Definition final_row (numeric : Dtypes) (row : CustomerT * option CustomerMetrics)
  : Analytics.t :=
  let c := base (fst row) in
  let m := snd row in
  let num (f : CustomerMetrics -> float) : float := Np.fillna 0 (Np.col f m) in
  let num_if (is_numeric : bool) (f : CustomerMetrics -> float) : float :=
    if is_numeric then Np.fillna 0 (Np.col f m) else Np.col f m in
  let total_policies := num (fun r => pm_total_policies (cmr_policy r)) in
  let total_claims := num (fun r => Np.col cc_total_claims (cmr_claims r)) in
  let detection_count :=
    num_if (fraud_rollups_numeric numeric)
           (fun r => Np.col cf_detection_count (cmr_fraud r)) in
  {| Analytics.customer_id := Customer.customer_id c;
     Analytics.name := Customer.name c;
     Analytics.age := Np.fillna 0 (Customer.age c);
     Analytics.email := Customer.email c;
     Analytics.city := Customer.city c;
     Analytics.registration_date := Customer.registration_date c;
     Analytics.customer_tenure_days := Np.fillna 0 (customer_tenure_days (fst row));
     Analytics.policy_tenure_days :=
       num (fun r => Np.col fp_policy_tenure_days (cmr_first r));
     Analytics.total_policies := total_policies;
     Analytics.active_policies :=
       num_if (policy_rollups_numeric numeric)
              (fun r => pm_active_policies (cmr_policy r));
     Analytics.policy_types := option_map (fun r => pm_policy_types (cmr_policy r)) m;
     Analytics.total_claims := total_claims;
     Analytics.total_claimed_amount :=
       num_if (claim_rollups_numeric numeric)
              (fun r => Np.col cc_total_claimed_amount (cmr_claims r));
     Analytics.avg_claim_amount :=
       num_if (claim_rollups_numeric numeric)
              (fun r => Np.col cc_avg_claim_amount (cmr_claims r));
     Analytics.fraud_detected :=
       match m with
       | Some r => match cmr_fraud r with
                   | Some f => cf_fraud_detected f
                   | None => None
                   end
       | None => None
       end;
     Analytics.detection_count := detection_count;
     Analytics.avg_confidence :=
       num_if (fraud_rollups_numeric numeric)
              (fun r => Np.col cf_avg_confidence (cmr_fraud r));
     Analytics.claims_per_policy := total_claims / Np.replace_zero_nan total_policies;
     Analytics.fraud_rate := detection_count / Np.replace_zero_nan total_claims;
     Analytics.avg_annual_premium :=
       num_if (policy_rollups_numeric numeric)
              (fun r => pm_avg_annual_premium (cmr_policy r));
     Analytics.total_coverage :=
       num_if (policy_rollups_numeric numeric)
              (fun r => pm_total_coverage (cmr_policy r));
     Analytics.policy_ids := option_map (fun r => pm_policy_ids (cmr_policy r)) m |}.

Definition create_customer_analytics (p : Preprocessed) : list Analytics.t :=
  (* 5.4 *)
  let customer_analytics :=
    Np.merge_left (fun c => Some (Customer.customer_id (base c)))
                  (fun r => pm_customer_id (cmr_policy r))
                  (p_customers p) (customer_metrics p) in
  map (final_row (select_dtypes p)) customer_analytics.

(** [main], from the loaded tables to the table it saves. *)
Definition main (i : Inputs) (w : World) : list Analytics.t * World :=
  let (p, w') := preprocess_data i w in
  (create_customer_analytics p, w').
End GenerateCustomerAnalytics.

(** ** [scripts/customer_analytics.py] *)

(** A cell of a data frame whose columns are addressed by name. *)
Inductive cell :=
| CText (s : string)
| CNum (x : float)
| CBool (b : bool)
| CDate (d : option Z)
| CCounts (d : option (list (string * nat)))
| CIds (l : option (list string)).

Record Frame := { columns : list string; rows : list (list cell) }.

(** The pandas operations on such frames. *)
Module Pd.
Local Open Scope float_scope.

Fixpoint index_of (name : string) (cols : list string) : option nat :=
  match cols with
  | [] => None
  | c :: cs => if String.eqb c name then Some O else option_map S (index_of name cs)
  end.

Definition num_at (i : nat) (row : list cell) : float :=
  match nth_error row i with
  | Some (CNum x) => x
  | _ => nan
  end.

(** The order of [sort_values] on a numeric column: missing values come
    last, in either direction. *)
Definition before (ascending : bool) (x y : float) : bool :=
  is_nan y || (negb (is_nan x) && (if ascending then x <=? y else y <=? x)).

(** [frame.sort_values(name, ascending=...)]; [None] is the [KeyError] of a
    column that is not there.  Rows with equal keys keep the order of the
    frame here; pandas leaves their order to its sorting algorithm. *)
Definition sort_values (name : string) (ascending : bool) (f : Frame) : option Frame :=
  match index_of name (columns f) with
  | None => None
  | Some i =>
      Some {| columns := columns f;
              rows := Np.sort_by (fun a b => before ascending (num_at i a) (num_at i b))
                                 (rows f) |}
  end.

Fixpoint traverse {A B} (f : A -> option B) (l : list A) : option (list B) :=
  match l with
  | [] => Some []
  | a :: l' =>
      match f a, traverse f l' with
      | Some b, Some bs => Some (b :: bs)
      | _, _ => None
      end
  end.
End Pd.

Module CustomerAnalytics.
Local Open Scope string_scope.
Local Open Scope float_scope.
Import F64.

(** Every function of the script copies the frame and adds columns to the
    copy, or overwrites some: a row of its result is the row it received
    with the new columns. *)

Module Loaded.
Record t := {
  df : Analytics.t;
  policy_tenure_days : float; fraud_detected : bool; detection_count : float }.
End Loaded.

Module Metrics.
Record t := {
  df : Loaded.t;
  policy_tenure_days : float; total_claims : float; total_claim_amount : float;
  annual_premium_sum : float; fraud_claims : float }.
End Metrics.

Module Lifetime.
Record t := { df : Metrics.t; lifetime_value : float; loss_ratio : float }.
End Lifetime.

Module Risk.
Record t := { df : Lifetime.t; risk_score : float }.
End Risk.

Module Segmented.
Record t := { df : Risk.t; segment : string }.
End Segmented.

(** The functions of the script work column by column, so that each one
    maps a function of one row over the frame.  The file is a table as the
    first script saves it: it has every column of that table, and its
    numeric columns hold numbers or nothing.  [read_csv] gives its rows, and
    [pd.to_numeric] leaves a numeric column as it is.  A file that lacks a
    column, or holds text in a numeric column, makes the script raise; such
    files are not rows of this type and are left out. *)

Definition load_and_prepare_data_row (r : Analytics.t) : Loaded.t :=
  {| Loaded.df := r;
     Loaded.policy_tenure_days := Analytics.policy_tenure_days r;
     Loaded.fraud_detected := Np.fillna_obj false (Analytics.fraud_detected r);
     Loaded.detection_count := Np.fillna 0 (Analytics.detection_count r) |}.

Definition load_and_prepare_data (file : list Analytics.t) : list Loaded.t :=
  map load_and_prepare_data_row file.

Definition calculate_metrics_row (r : Loaded.t) : Metrics.t :=
  let src := Loaded.df r in
  {| Metrics.df := r;
     (* 1 *)
     Metrics.policy_tenure_days := Np.fillna 0 (Loaded.policy_tenure_days r);
     (* 2 *)
     Metrics.total_claims := Np.fillna 0 (Analytics.total_claims src);
     Metrics.total_claim_amount := Np.fillna 0 (Analytics.total_claimed_amount src);
     (* 3 *)
     Metrics.annual_premium_sum :=
       Analytics.active_policies src * Analytics.avg_annual_premium src;
     (* 4 *)
     Metrics.fraud_claims := Loaded.detection_count r |}.

Definition calculate_metrics (df : list Loaded.t) : list Metrics.t :=
  map calculate_metrics_row df.

Definition calculate_lifetime_metrics_row (r : Metrics.t) : Lifetime.t :=
  {| Lifetime.df := r;
     Lifetime.lifetime_value :=
       Metrics.annual_premium_sum r - Metrics.total_claim_amount r;
     Lifetime.loss_ratio :=
       Np.where_ (gtb (Metrics.annual_premium_sum r) 0)
                 (Metrics.total_claim_amount r / Metrics.annual_premium_sum r)
                 nan |}.

Definition calculate_lifetime_metrics (df : list Metrics.t) : list Lifetime.t :=
  map calculate_lifetime_metrics_row df.

(** The three components of the risk score. *)
Definition loss_ratio_score (r : Lifetime.t) : float :=
  Np.clip (Lifetime.loss_ratio r * 50) 0 50.

Definition fraud_score (r : Lifetime.t) : float :=
  Np.clip (Metrics.fraud_claims (Lifetime.df r) * 3) 0 30.

Definition claims_per_year (r : Lifetime.t) : float :=
  Metrics.total_claims (Lifetime.df r)
  / (Np.clip_lower (Metrics.policy_tenure_days (Lifetime.df r)) 1 / 365.25).

Definition frequency_score (r : Lifetime.t) : float :=
  Np.clip (claims_per_year r * 4) 0 20.

Definition calculate_risk_score_row (r : Lifetime.t) : Risk.t :=
  {| Risk.df := r;
     Risk.risk_score := loss_ratio_score r + fraud_score r + frequency_score r |}.

Definition calculate_risk_score (df : list Lifetime.t) : list Risk.t :=
  map calculate_risk_score_row df.

(** The conditions and the names of [assign_segments], for one row. *)
Definition conditions (lifetime_value risk_score : float) : list bool :=
  [ geb lifetime_value 0 && (risk_score <=? 40);
    geb lifetime_value 0 && gtb risk_score 40 && (risk_score <=? 60);
    (lifetime_value <? 0) && gtb risk_score 60;
    true ].

Definition segments : list string :=
  [ "Premium Partner"; "Growth Prospect"; "Risk Management"; "Watch List" ].

Definition segment_of (lifetime_value risk_score : float) : string :=
  Np.select (conditions lifetime_value risk_score) segments "Watch List".

Definition assign_segments_row (r : Risk.t) : Segmented.t :=
  {| Segmented.df := r;
     Segmented.segment :=
       segment_of (Lifetime.lifetime_value (Risk.df r)) (Risk.risk_score r) |}.

Definition assign_segments (df : list Risk.t) : list Segmented.t :=
  map assign_segments_row df.

(** The columns of the frame after step 5: those of the file, overwritten
    where a step assigned to them, and the ones the steps added. *)
Definition column (name : string) (r : Segmented.t) : option cell :=
  let risk := Segmented.df r in
  let life := Risk.df risk in
  let met := Lifetime.df life in
  let loaded := Metrics.df met in
  let src := Loaded.df loaded in
  if String.eqb name "customer_id" then Some (CText (Analytics.customer_id src))
  else if String.eqb name "name" then Some (CText (Analytics.name src))
  else if String.eqb name "age" then Some (CNum (Analytics.age src))
  else if String.eqb name "email" then Some (CText (Analytics.email src))
  else if String.eqb name "city" then Some (CText (Analytics.city src))
  else if String.eqb name "registration_date" then Some (CDate (Analytics.registration_date src))
  else if String.eqb name "customer_tenure_days" then Some (CNum (Analytics.customer_tenure_days src))
  else if String.eqb name "policy_tenure_days" then Some (CNum (Metrics.policy_tenure_days met))
  else if String.eqb name "total_policies" then Some (CNum (Analytics.total_policies src))
  else if String.eqb name "active_policies" then Some (CNum (Analytics.active_policies src))
  else if String.eqb name "policy_types" then Some (CCounts (Analytics.policy_types src))
  else if String.eqb name "total_claims" then Some (CNum (Metrics.total_claims met))
  else if String.eqb name "total_claimed_amount" then Some (CNum (Analytics.total_claimed_amount src))
  else if String.eqb name "avg_claim_amount" then Some (CNum (Analytics.avg_claim_amount src))
  else if String.eqb name "fraud_detected" then Some (CBool (Loaded.fraud_detected loaded))
  else if String.eqb name "detection_count" then Some (CNum (Loaded.detection_count loaded))
  else if String.eqb name "avg_confidence" then Some (CNum (Analytics.avg_confidence src))
  else if String.eqb name "claims_per_policy" then Some (CNum (Analytics.claims_per_policy src))
  else if String.eqb name "fraud_rate" then Some (CNum (Analytics.fraud_rate src))
  else if String.eqb name "avg_annual_premium" then Some (CNum (Analytics.avg_annual_premium src))
  else if String.eqb name "total_coverage" then Some (CNum (Analytics.total_coverage src))
  else if String.eqb name "policy_ids" then Some (CIds (Analytics.policy_ids src))
  else if String.eqb name "total_claim_amount" then Some (CNum (Metrics.total_claim_amount met))
  else if String.eqb name "annual_premium_sum" then Some (CNum (Metrics.annual_premium_sum met))
  else if String.eqb name "fraud_claims" then Some (CNum (Metrics.fraud_claims met))
  else if String.eqb name "lifetime_value" then Some (CNum (Lifetime.lifetime_value life))
  else if String.eqb name "loss_ratio" then Some (CNum (Lifetime.loss_ratio life))
  else if String.eqb name "risk_score" then Some (CNum (Risk.risk_score risk))
  else if String.eqb name "segment" then Some (CText (Segmented.segment r))
  else None.

Definition df_columns : list string :=
  [ "customer_id"; "name"; "age"; "email"; "city"; "registration_date";
    "customer_tenure_days"; "policy_tenure_days"; "total_policies";
    "active_policies"; "policy_types"; "total_claims"; "total_claimed_amount";
    "avg_claim_amount"; "fraud_detected"; "detection_count"; "avg_confidence";
    "claims_per_policy"; "fraud_rate"; "avg_annual_premium"; "total_coverage";
    "policy_ids"; "total_claim_amount"; "annual_premium_sum"; "fraud_claims";
    "lifetime_value"; "loss_ratio"; "risk_score"; "segment" ].

(** [df[cols]]; [None] is the [KeyError] of a column that is not there. *)
Definition getitem (cols : list string) (df : list Segmented.t) : option Frame :=
  if forallb (fun c => existsb (String.eqb c) df_columns) cols
  then option_map (fun rs => {| columns := cols; rows := rs |})
                  (Pd.traverse (fun r => Pd.traverse (fun c => column c r) cols) df)
  else None.

Definition output_cols : list string :=
  [ "customer_id"; "name"; "lifetime_value"; "loss_ratio";
    "risk_score"; "segment"; "total_claims"; "total_claim_amount";
    "annual_premium_sum"; "fraud_claims"; "policy_tenure_days" ].

(** Steps 1 to 5 of [main]. *)
Definition analyse (file : list Analytics.t) : list Segmented.t :=
  assign_segments
    (calculate_risk_score
       (calculate_lifetime_metrics
          (calculate_metrics
             (load_and_prepare_data file)))).

(** The same five steps on one row of the file, and the columns of the
    row they produce. *)
Definition analyse_row (r : Analytics.t) : Segmented.t :=
  assign_segments_row
    (calculate_risk_score_row
       (calculate_lifetime_metrics_row
          (calculate_metrics_row
             (load_and_prepare_data_row r)))).

Definition lifetime_of (s : Segmented.t) : Lifetime.t := Risk.df (Segmented.df s).
Definition metrics_of (s : Segmented.t) : Metrics.t := Lifetime.df (lifetime_of s).

Definition lifetime_value (s : Segmented.t) : float := Lifetime.lifetime_value (lifetime_of s).
Definition loss_ratio (s : Segmented.t) : float := Lifetime.loss_ratio (lifetime_of s).
Definition risk_score (s : Segmented.t) : float := Risk.risk_score (Segmented.df s).
Definition segment (s : Segmented.t) : string := Segmented.segment s.
Definition annual_premium_sum (s : Segmented.t) : float :=
  Metrics.annual_premium_sum (metrics_of s).
Definition total_claim_amount (s : Segmented.t) : float :=
  Metrics.total_claim_amount (metrics_of s).
Definition total_claims (s : Segmented.t) : float := Metrics.total_claims (metrics_of s).
Definition fraud_claims (s : Segmented.t) : float := Metrics.fraud_claims (metrics_of s).
Definition policy_tenure_days (s : Segmented.t) : float :=
  Metrics.policy_tenure_days (metrics_of s).

(** The row of [df[output_cols]] for a row of the frame. *)
Definition output_row (s : Segmented.t) : list cell :=
  [ CText (Analytics.customer_id (Loaded.df (Metrics.df (metrics_of s))));
    CText (Analytics.name (Loaded.df (Metrics.df (metrics_of s))));
    CNum (lifetime_value s); CNum (loss_ratio s); CNum (risk_score s);
    CText (segment s); CNum (total_claims s); CNum (total_claim_amount s);
    CNum (annual_premium_sum s); CNum (fraud_claims s);
    CNum (policy_tenure_days s) ].

(** [main]: the frame it saves and returns, [None] when it raises. *)
Definition main (file : list Analytics.t) : option Frame :=
  match getitem output_cols (analyse file) with
  | Some result => Pd.sort_values "lifetime_value" false result
  | None => None
  end.
End CustomerAnalytics.

(** The rows of a frame that belong to a customer, and the lifetime value of
    a row of the output (its third column). *)
Definition rows_of_customer (customer_id : string) (f : Frame) : list (list cell) :=
  filter (fun row => match row with
                     | CText s :: _ => String.eqb s customer_id
                     | _ => false
                     end) (rows f).

Definition row_lifetime_value (row : list cell) : float := Pd.num_at 2 row.

(** The risk score of a row of the output (its fifth column). *)
Definition row_risk_score (row : list cell) : float := Pd.num_at 4 row.

(** ** The pipeline: the second script loads the table the first one saved *)

Module Pipeline.
Definition run (i : GenerateCustomerAnalytics.Inputs) (w : World)
  : option Frame * World :=
  let (table, w') := GenerateCustomerAnalytics.main i w in
  (CustomerAnalytics.main table, w').
End Pipeline.

(** ** Sample rows and tables *)

Module Examples.
Local Open Scope string_scope.
Local Open Scope float_scope.

(** A row of the merged table with the given aggregates. *)
Definition row (customer_id : string)
           (active_policies avg_annual_premium total_claims total_claimed_amount
            detection_count policy_tenure_days : float) : Analytics.t :=
  {| Analytics.customer_id := customer_id; Analytics.name := "N. N.";
     Analytics.age := 40; Analytics.email := "nn@example.org";
     Analytics.city := "Pune"; Analytics.registration_date := Some 0%Z;
     Analytics.customer_tenure_days := 400;
     Analytics.policy_tenure_days := policy_tenure_days;
     Analytics.total_policies := 2; Analytics.active_policies := active_policies;
     Analytics.policy_types := Some [("AUTO", 2%nat)];
     Analytics.total_claims := total_claims;
     Analytics.total_claimed_amount := total_claimed_amount;
     Analytics.avg_claim_amount := total_claimed_amount;
     Analytics.fraud_detected := Some false;
     Analytics.detection_count := detection_count; Analytics.avg_confidence := 0;
     Analytics.claims_per_policy := total_claims / 2;
     Analytics.fraud_rate := 0;
     Analytics.avg_annual_premium := avg_annual_premium;
     Analytics.total_coverage := 100000;
     Analytics.policy_ids := Some ["P1"; "P2"] |}.

(** Two active policies of 1000 a year, one claim of 500 in 365 days. *)
Definition scenario : Analytics.t := row "C1" 2 1000 1 500 0 365.

(** No active policy: one lapsed policy of 500 a year, one claim of 700,
    two fraud detections, 265 days of tenure. *)
Definition lapsed : Analytics.t := row "C2" 0 500 1 700 2 265.

(** Claims above the premiums. *)
Definition loss_making : Analytics.t := row "C3" 1 1000 3 4000 0 365.

Definition day : Z := 86400000000000.

Definition customer (customer_id name : string) : Customer.t :=
  {| Customer.customer_id := customer_id; Customer.name := name;
     Customer.age := 30; Customer.email := "a@example.org";
     Customer.city := "Pune"; Customer.registration_date := Some 0%Z |}.

Definition policy (policy_id customer_id status : string) (annual_premium : float)
           (start : Z) : Policy.t :=
  {| Policy.policy_id := policy_id; Policy.customer_id := customer_id;
     Policy.status := status; Policy.annual_premium := annual_premium;
     Policy.coverage_amount := 10000; Policy.policy_type := "AUTO";
     Policy.start_date := Some (start * day)%Z |}.

Definition claim (claim_id policy_id : string) (claim_amount : float) : Claim.t :=
  {| Claim.claim_id := claim_id; Claim.policy_id := policy_id;
     Claim.claim_amount := claim_amount; Claim.status := "PAID";
     Claim.claim_date := None |}.

Definition detection (claim_id : string) (is_fraudulent : bool) : Fraud.t :=
  {| Fraud.claim_id := claim_id; Fraud.is_fraudulent := is_fraudulent;
     Fraud.confidence_score := 0.5; Fraud.detection_date := None |}.

(** Ann has two active policies and a claim, Bob has no policy at all, Cy
    has one lapsed policy, a claim and two fraud detections. *)
Definition tables : GenerateCustomerAnalytics.Inputs :=
  {| GenerateCustomerAnalytics.customers :=
       [customer "A" "Ann"; customer "B" "Bob"; customer "C" "Cy"];
     GenerateCustomerAnalytics.policies :=
       [policy "P1" "A" "ACTIVE" 1000 0; policy "P2" "A" "ACTIVE" 1000 10;
        policy "P3" "C" "LAPSED" 500 100];
     GenerateCustomerAnalytics.claims := [claim "K1" "P1" 500; claim "K2" "P3" 700];
     GenerateCustomerAnalytics.fraud := [detection "K2" true; detection "K2" true] |}.

(** Two machines whose clocks agree on the first reading, a year after the
    epoch, and on nothing else. *)
Definition world1 : World :=
  {| clock := fun n => (365 * day + Z.of_nat n)%Z; reads := 0 |}.
Definition world2 : World :=
  {| clock := fun n => (365 * day + 1000 * Z.of_nat n)%Z; reads := 0 |}.
End Examples.

(** ** The reporting scripts: [analyze_segments.py] and [scripts/summary.py]

    Both read the table of segments back from a file and print a summary of
    it.  What they print is modelled by the values they compute; the layout
    of the printed lines is left out. *)

Module Report.
Local Open Scope float_scope.

Definition num_of (c : cell) : float :=
  match c with
  | CNum x => x
  | _ => nan
  end.

(** The text values of a column, the missing ones left out. *)
Definition texts_at (i : nat) (rows : list (list cell)) : list string :=
  flat_map (fun row => match nth_error row i with
                       | Some (CText s) => [s]
                       | _ => []
                       end) rows.

(** [df[name].value_counts()]; [None] is the [KeyError] of a column that is
    not there. *)
Definition value_counts (name : string) (f : Frame) : option (list (string * nat)) :=
  option_map (fun i => Np.value_counts (texts_at i (rows f)))
             (Pd.index_of name (columns f)).

(** The order of [sort_values] on several numeric columns: the first column
    decides, the next one decides between rows that are equal on it, and so
    on; in every column the missing values come last. *)
Fixpoint lex_before (keys : list (nat * bool)) (a b : list cell) : bool :=
  match keys with
  | [] => true
  | (i, ascending) :: keys' =>
      if Pd.before ascending (Pd.num_at i a) (Pd.num_at i b)
      then if Pd.before ascending (Pd.num_at i b) (Pd.num_at i a)
           then lex_before keys' a b
           else true
      else false
  end.

(** [df.sort_values(by=[...], ascending=[...])]. *)
Definition sort_values_by (by_ : list (string * bool)) (f : Frame) : option Frame :=
  match Pd.traverse (fun k => option_map (fun i => (i, snd k))
                                         (Pd.index_of (fst k) (columns f))) by_ with
  | Some keys => Some {| columns := columns f;
                         rows := Np.sort_by (lex_before keys) (rows f) |}
  | None => None
  end.

(** [df.head(n)]. *)
Definition head (n : nat) (f : Frame) : Frame :=
  {| columns := columns f; rows := firstn n (rows f) |}.

(** A column read from a file is a column of numbers when the file has rows
    and every cell of the column is a number or missing; it has dtype object
    when the file has a header and no rows, or when a cell holds text. *)
Definition numeric_column (i : nat) (rows : list (list cell)) : bool :=
  match rows with
  | [] => false
  | _ :: _ => forallb (fun row => match nth_error row i with
                                  | Some (CNum _) => true
                                  | _ => false
                                  end) rows
  end.

(** [df.nlargest(n, name)]: as pandas documents it, the first [n] rows of
    [df.sort_values(name, ascending=False)], the earlier of two equal rows
    first; [None] is the [KeyError] of a column that is not there and the
    [TypeError] of a column of dtype object.  A column of flags, which
    pandas ranks as well, is left out: it gives [None] too. *)
Definition nlargest (n : nat) (name : string) (f : Frame) : option Frame :=
  match Pd.index_of name (columns f) with
  | Some i =>
      if numeric_column i (rows f)
      then option_map (head n) (Pd.sort_values name false f)
      else None
  | None => None
  end.

(** [row[name]] for a row of the frame. *)
Definition getitem_row (f : Frame) (name : string) (row : list cell) : option cell :=
  match Pd.index_of name (columns f) with
  | Some i => nth_error row i
  | None => None
  end.
End Report.

Module AnalyzeSegments.
Local Open Scope string_scope.
Local Open Scope float_scope.

(** What is printed for a customer: the loss ratio only when it is there. *)
Record Line := {
  customer_id : cell; segment : cell; lifetime_value : float;
  loss_ratio : option float }.

Record Summary := { segment_counts : list (string * nat); top_risks : list Line }.

Definition line (f : Frame) (row : list cell) : option Line :=
  match Report.getitem_row f "customer_id" row, Report.getitem_row f "segment" row,
        Report.getitem_row f "lifetime_value" row, Report.getitem_row f "loss_ratio" row with
  | Some c, Some s, Some v, Some l =>
      Some {| customer_id := c; segment := s; lifetime_value := Report.num_of v;
              loss_ratio := if is_nan (Report.num_of l) then None
                            else Some (Report.num_of l) |}
  | _, _, _, _ => None
  end.

(** [analyze_customers] on the frame read from the file; [None] when it
    raises. *)
Definition analyze_customers (df : Frame) : option Summary :=
  match Report.value_counts "segment" df with
  | None => None
  | Some counts =>
      match Report.sort_values_by [("lifetime_value", true); ("loss_ratio", false)] df with
      | None => None
      | Some high_risk =>
          let top := Report.head 3 high_risk in
          option_map (fun ls => {| segment_counts := counts; top_risks := ls |})
                     (Pd.traverse (line top) (rows top))
      end
  end.
End AnalyzeSegments.

Module Summary.
Local Open Scope string_scope.
Local Open Scope float_scope.

Record Line := {
  customer_id : cell; risk_score : float; segment : cell; lifetime_value : float;
  loss_ratio_percent : float }.

Record t := { segment_counts : list (string * nat); high_risk : list Line }.

(** The loss ratio as it is printed: a percentage, 0 when it is missing. *)
Definition percent (loss_ratio : float) : float :=
  if negb (is_nan loss_ratio) then loss_ratio * 100 else 0.

Definition line (f : Frame) (row : list cell) : option Line :=
  match Report.getitem_row f "customer_id" row, Report.getitem_row f "risk_score" row,
        Report.getitem_row f "segment" row, Report.getitem_row f "lifetime_value" row,
        Report.getitem_row f "loss_ratio" row with
  | Some c, Some r, Some s, Some v, Some l =>
      Some {| customer_id := c; risk_score := Report.num_of r; segment := s;
              lifetime_value := Report.num_of v;
              loss_ratio_percent := percent (Report.num_of l) |}
  | _, _, _, _, _ => None
  end.

(** [generate_summary]; [None] when it raises. *)
Definition generate_summary (segmented_customers : Frame) : option t :=
  match Report.value_counts "segment" segmented_customers with
  | None => None
  | Some counts =>
      match Report.nlargest 3 "risk_score" segmented_customers with
      | None => None
      | Some top =>
          option_map (fun ls => {| segment_counts := counts; high_risk := ls |})
                     (Pd.traverse (line top) (rows top))
      end
  end.
End Summary.

(** ** Notions used to state the properties of the tables *)

(** The policies of a customer, in the order of the policy table. *)
Definition policies_of (customer_id : string) (policies : list Policy.t) : list Policy.t :=
  filter (fun q => String.eqb (Policy.customer_id q) customer_id) policies.

(** A numeric cell of a row of a frame, by the name of its column; missing
    when the column is not there or holds no number. *)
Definition row_num (f : Frame) (name : string) (row : list cell) : float :=
  match Pd.index_of name (columns f) with
  | Some i => Pd.num_at i row
  | None => PrimFloat.nan
  end.

(** ** More sample tables *)

Module MoreExamples.
Local Open Scope string_scope.
Local Open Scope float_scope.

(** Ann has two policies and no claim; the only claim is on the policy of
    Cy. *)
Definition insured_without_claims : GenerateCustomerAnalytics.Inputs :=
  {| GenerateCustomerAnalytics.customers :=
       [Examples.customer "A" "Ann"; Examples.customer "C" "Cy"];
     GenerateCustomerAnalytics.policies :=
       [Examples.policy "P1" "A" "ACTIVE" 1000 0;
        Examples.policy "P2" "A" "LAPSED" 800 10;
        Examples.policy "P3" "C" "ACTIVE" 500 100];
     GenerateCustomerAnalytics.claims := [Examples.claim "K2" "P3" 700];
     GenerateCustomerAnalytics.fraud := [Examples.detection "K2" true] |}.

(** A table of segments as the reporting scripts read it. *)
Definition segments : Frame :=
  {| columns := ["customer_id"; "segment"; "lifetime_value"; "loss_ratio"; "risk_score"];
     rows :=
       [ [CText "C1"; CText "Premium Partner"; CNum 1500; CNum 0.25; CNum 16.5];
         [CText "C2"; CText "Watch List"; CNum (-700); CNum nan; CNum nan];
         [CText "C3"; CText "Risk Management"; CNum (-3000); CNum 4; CNum 62];
         [CText "C4"; CText "Watch List"; CNum nan; CNum nan; CNum nan];
         [CText "C5"; CText "Growth Prospect"; CNum 3000; CNum 0.5; CNum 57] ] |}.

(** A merged table with missing counts and amounts. *)
Definition sparse : list Analytics.t :=
  [ Examples.row "C4" nan 1000 nan nan nan nan; Examples.scenario ].


(** Ann has one policy, Bob has none, and no claim or fraud detection is on
    file. *)
Definition no_claims_on_file : GenerateCustomerAnalytics.Inputs :=
  {| GenerateCustomerAnalytics.customers :=
       [Examples.customer "A" "Ann"; Examples.customer "B" "Bob"];
     GenerateCustomerAnalytics.policies := [Examples.policy "P1" "A" "ACTIVE" 1000 0];
     GenerateCustomerAnalytics.claims := [];
     GenerateCustomerAnalytics.fraud := [] |}.

(** Ann has a policy with a claim on it, Bob a policy without a claim, and no
    fraud detection is on file. *)
Definition no_fraud_on_file : GenerateCustomerAnalytics.Inputs :=
  {| GenerateCustomerAnalytics.customers :=
       [Examples.customer "A" "Ann"; Examples.customer "B" "Bob"];
     GenerateCustomerAnalytics.policies :=
       [Examples.policy "P1" "A" "ACTIVE" 1000 0;
        Examples.policy "P2" "B" "ACTIVE" 800 10];
     GenerateCustomerAnalytics.claims := [Examples.claim "K1" "P1" 500];
     GenerateCustomerAnalytics.fraud := [] |}.


(** Three policies of one customer with premiums and coverages of 0.1, 0.2
    and 0.3 (the binary64 values next to them), which do not add up exactly
    from left to right. *)
Definition tenths : list Policy.t :=
  map (fun x => {| Policy.policy_id := "P"; Policy.customer_id := "A";
                   Policy.status := "ACTIVE"; Policy.annual_premium := x;
                   Policy.coverage_amount := x; Policy.policy_type := "AUTO";
                   Policy.start_date := None |})
      [0x1.999999999999ap-4; 0x1.999999999999ap-3; 0x1.3333333333333p-2].

Definition tenths_tables : GenerateCustomerAnalytics.Inputs :=
  {| GenerateCustomerAnalytics.customers := [Examples.customer "A" "Ann"];
     GenerateCustomerAnalytics.policies := tenths;
     GenerateCustomerAnalytics.claims := [];
     GenerateCustomerAnalytics.fraud := [] |}.
End MoreExamples.

(** * Facts about binary64 floats

    The comparisons of primitive floats are specified by those of
    [spec_float]; their order properties are proved there and carried
    over. *)

Section SpecFloatOrder.
Import F64.

Lemma SFleb_cmp x y : SFleb x y = le_cmp (SFcompare x y).
Proof. unfold SFleb. destruct (SFcompare x y) as [[]|]; reflexivity. Qed.

Lemma SFltb_cmp x y : SFltb x y = lt_cmp (SFcompare x y).
Proof. unfold SFltb. destruct (SFcompare x y) as [[]|]; reflexivity. Qed.

Lemma SFcompare_antisym (x y : spec_float) :
  SFcompare y x = option_map CompOpp (SFcompare x y).
Proof.
  destruct x as [sx|sx| |sx mx ex], y as [sy|sy| |sy my ey]; simpl; trivial;
    try (destruct sx; reflexivity); try (destruct sy; reflexivity);
    try (destruct sx, sy; reflexivity).
  destruct sx, sy; simpl; trivial;
    rewrite (Z.compare_antisym ex ey); destruct (ex ?= ey)%Z; simpl; trivial;
    change (PosDef.Pos.compare_cont Eq) with Pos.compare;
    rewrite (Pos.compare_antisym mx my); reflexivity.
Qed.

Lemma SFcompare_refl (x : spec_float) :
  x <> S754_nan -> SFcompare x x = Some Eq.
Proof.
  destruct x as [s|s| |s m e]; simpl; intros H; trivial.
  - destruct s; reflexivity.
  - contradiction.
  - rewrite Z.compare_refl.
    change (PosDef.Pos.compare_cont Eq) with Pos.compare.
    rewrite Pos.compare_refl. destruct s; reflexivity.
Qed.

Lemma SFcompare_defined (x y : spec_float) :
  x <> S754_nan -> y <> S754_nan -> exists c, SFcompare x y = Some c.
Proof.
  destruct x, y; simpl; intros Hx Hy; try contradiction; eauto.
Qed.

Lemma SFleb_total (x y : spec_float) :
  x <> S754_nan -> y <> S754_nan -> SFleb x y = true \/ SFleb y x = true.
Proof.
  intros Hx Hy. rewrite !SFleb_cmp, (SFcompare_antisym x y).
  destruct (SFcompare_defined x y Hx Hy) as [c ->].
  destruct c; simpl; auto.
Qed.

Lemma SFleb_trans (x y z : spec_float) :
  SFleb x y = true -> SFleb y z = true -> SFleb x z = true.
Proof.
  rewrite !SFleb_cmp.
  destruct x as [sx|sx| |sx mx ex], y as [sy|sy| |sy my ey], z as [sz|sz| |sz mz ez];
    simpl; try discriminate; trivial;
    try (destruct sx; simpl; try discriminate; trivial; fail);
    try (destruct sy; simpl; try discriminate; trivial; fail);
    try (destruct sz; simpl; try discriminate; trivial; fail);
    try (destruct sx, sy; simpl; try discriminate; trivial; fail);
    try (destruct sx, sz; simpl; try discriminate; trivial; fail);
    try (destruct sy, sz; simpl; try discriminate; trivial; fail);
    try (destruct sx, sy, sz; simpl; try discriminate; trivial; fail).
  all: destruct sx, sy, sz; simpl; try discriminate; trivial.
  all: change (PosDef.Pos.compare_cont Eq) with Pos.compare.
  all: destruct (Z.compare_spec ex ey), (Z.compare_spec ey ez), (Z.compare_spec ex ez);
    simpl; try discriminate; trivial; try lia; subst.
  all: destruct (Pos.compare_spec mx my), (Pos.compare_spec my mz), (Pos.compare_spec mx mz);
    simpl; try discriminate; trivial; try lia.
Qed.

Lemma SFltb_leb (x y : spec_float) : SFltb x y = true -> SFleb x y = true.
Proof.
  rewrite SFltb_cmp, SFleb_cmp. destruct (SFcompare x y) as [[]|]; simpl; congruence.
Qed.

Lemma SFltb_not_leb (x y : spec_float) : SFltb x y = true -> SFleb y x = false.
Proof.
  rewrite SFltb_cmp, SFleb_cmp, (SFcompare_antisym x y).
  destruct (SFcompare x y) as [[]|]; simpl; congruence.
Qed.

Lemma SFleb_not_ltb (x y : spec_float) : SFleb x y = true -> SFltb y x = false.
Proof.
  rewrite SFltb_cmp, SFleb_cmp, (SFcompare_antisym x y).
  destruct (SFcompare x y) as [[]|]; simpl; congruence.
Qed.

End SpecFloatOrder.

Section Binary64.
Local Open Scope float_scope.

Lemma is_nan_spec (x : float) : is_nan x = true <-> x = nan.
Proof.
  split.
  - unfold is_nan. rewrite eqb_spec. intros H.
    apply Prim2SF_inj. change (Prim2SF nan) with S754_nan.
    destruct (Prim2SF x) as [s|s| |s m e]; trivial; exfalso; revert H.
    + discriminate.
    + destruct s; discriminate.
    + unfold SFeqb. rewrite SFcompare_refl by discriminate. discriminate.
  - intros ->. reflexivity.
Qed.

Lemma not_nan_spec (x : float) : is_nan x = false -> Prim2SF x <> S754_nan.
Proof.
  intros H E. assert (x = nan) as ->.
  { apply Prim2SF_inj. exact E. }
  discriminate H.
Qed.

Lemma leb_total (x y : float) :
  is_nan x = false -> is_nan y = false -> (x <=? y) = true \/ (y <=? x) = true.
Proof.
  intros Hx Hy. rewrite !leb_spec.
  apply SFleb_total; apply not_nan_spec; assumption.
Qed.

Lemma leb_trans (x y z : float) :
  (x <=? y) = true -> (y <=? z) = true -> (x <=? z) = true.
Proof. rewrite !leb_spec. apply SFleb_trans. Qed.

Lemma ltb_leb (x y : float) : (x <? y) = true -> (x <=? y) = true.
Proof. rewrite ltb_spec, leb_spec. apply SFltb_leb. Qed.

Lemma ltb_not_leb (x y : float) : (x <? y) = true -> (y <=? x) = false.
Proof. rewrite ltb_spec, leb_spec. apply SFltb_not_leb. Qed.

Lemma leb_not_ltb (x y : float) : (x <=? y) = true -> (y <? x) = false.
Proof. rewrite ltb_spec, leb_spec. apply SFleb_not_ltb. Qed.

(** Every comparison with NaN is false. *)
Lemma leb_nan_l (y : float) : (nan <=? y) = false.
Proof. rewrite leb_spec. reflexivity. Qed.

Lemma leb_nan_r (x : float) : (x <=? nan) = false.
Proof.
  rewrite leb_spec. change (Prim2SF nan) with S754_nan.
  destruct (Prim2SF x); reflexivity.
Qed.

Lemma ltb_nan_l (y : float) : (nan <? y) = false.
Proof. rewrite ltb_spec. reflexivity. Qed.

Lemma ltb_nan_r (x : float) : (x <? nan) = false.
Proof.
  rewrite ltb_spec. change (Prim2SF nan) with S754_nan.
  destruct (Prim2SF x); reflexivity.
Qed.

(** NaN is absorbing for the arithmetic of the risk score. *)
Lemma add_nan_l (y : float) : nan + y = nan.
Proof. apply Prim2SF_inj. rewrite add_spec. reflexivity. Qed.

Lemma mul_nan_l (y : float) : nan * y = nan.
Proof. apply Prim2SF_inj. rewrite mul_spec. reflexivity. Qed.

(** A float equal to zero is not greater than zero. *)
Lemma eqb_zero_not_gtb (x : float) : (x =? 0) = true -> (0 <? x) = false.
Proof.
  rewrite eqb_spec, ltb_spec. change (Prim2SF 0) with (S754_zero false).
  destruct (Prim2SF x) as [s|s| |s m e]; try reflexivity.
  - destruct s; discriminate.
  - destruct s; discriminate.
Qed.

End Binary64.

(** * The metric calculator and the segmenter *)

Section Stage2.
Import CustomerAnalytics F64.
Local Open Scope string_scope.
Local Open Scope float_scope.

Lemma analyse_map (file : list Analytics.t) : analyse file = map analyse_row file.
Proof.
  unfold analyse, assign_segments, calculate_risk_score, calculate_lifetime_metrics,
    calculate_metrics, load_and_prepare_data.
  rewrite !map_map. reflexivity.
Qed.

(** An undefined loss ratio makes the whole score undefined: [np.clip]
    keeps NaN, and so does the sum. *)
Lemma risk_score_nan (r : Lifetime.t) :
  is_nan (Lifetime.loss_ratio r) = true ->
  Risk.risk_score (calculate_risk_score_row r) = nan.
Proof.
  intros H. apply is_nan_spec in H. unfold calculate_risk_score_row; simpl.
  unfold loss_ratio_score. rewrite H, mul_nan_l.
  change (Np.clip nan 0 50) with nan. now rewrite !add_nan_l.
Qed.

Lemma loss_ratio_zero_premium (r : Metrics.t) :
  (Metrics.annual_premium_sum r =? 0) = true ->
  Lifetime.loss_ratio (calculate_lifetime_metrics_row r) = nan.
Proof.
  intros H. unfold calculate_lifetime_metrics_row, Np.where_, gtb; simpl.
  now rewrite (eqb_zero_not_gtb _ H).
Qed.

(** No rule but the default one holds of an undefined score. *)
Lemma conditions_nan (lifetime_value : float) :
  conditions lifetime_value nan = [false; false; false; true].
Proof.
  unfold conditions, gtb, geb.
  rewrite leb_nan_l, ltb_nan_r, !andb_false_r. reflexivity.
Qed.

(** C3: the segment is a function of the pair (lifetime value, risk
    score) alone.  Rule 1 (lifetime value at least 0, score at most 40)
    gives "Premium Partner", rule 2 (lifetime value at least 0, score above
    40 and at most 60) gives "Growth Prospect", rule 3 (lifetime value below
    0, score above 60) gives "Risk Management", and every pair that
    satisfies none of the three, among them the pairs with lifetime value at
    least 0 and score above 60, gives "Watch List".  The label is the one of
    the first rule that holds, and it is always one of the four. *)
Theorem C3_segment_rules (lifetime_value risk_score : float) :
  let rule1 := geb lifetime_value 0 && (risk_score <=? 40) in
  let rule2 := geb lifetime_value 0 && gtb risk_score 40 && (risk_score <=? 60) in
  let rule3 := (lifetime_value <? 0) && gtb risk_score 60 in
  let seg := segment_of lifetime_value risk_score in
  (rule1 = true -> seg = "Premium Partner") /\
  (rule2 = true -> seg = "Growth Prospect") /\
  (rule3 = true -> seg = "Risk Management") /\
  (rule1 = false /\ rule2 = false /\ rule3 = false -> seg = "Watch List") /\
  (geb lifetime_value 0 && gtb risk_score 60 = true -> seg = "Watch List") /\
  seg = (if rule1 then "Premium Partner"
         else if rule2 then "Growth Prospect"
         else if rule3 then "Risk Management"
         else "Watch List") /\
  In seg ["Premium Partner"; "Growth Prospect"; "Risk Management"; "Watch List"] /\
  (forall r : Risk.t,
      Lifetime.lifetime_value (Risk.df r) = lifetime_value ->
      Risk.risk_score r = risk_score ->
      Segmented.segment (assign_segments_row r) = seg).
Proof.
  intros rule1 rule2 rule3 seg.
  assert (Hseg : seg = (if rule1 then "Premium Partner"
                        else if rule2 then "Growth Prospect"
                        else if rule3 then "Risk Management"
                        else "Watch List")).
  { subst seg rule1 rule2 rule3. unfold segment_of, conditions, segments, Np.select.
    repeat match goal with |- context [if ?b then _ else _] => destruct b end;
      reflexivity. }
  assert (H12 : rule2 = true -> rule1 = false).
  { subst rule1 rule2. unfold gtb. intros H.
    apply andb_prop in H as [H _]. apply andb_prop in H as [_ H].
    now rewrite (ltb_not_leb _ _ H), andb_false_r. }
  assert (H13 : rule3 = true -> rule1 = false /\ rule2 = false).
  { subst rule1 rule2 rule3. unfold geb. intros H.
    apply andb_prop in H as [H _]. now rewrite (ltb_not_leb _ _ H). }
  repeat split.
  - intros H. now rewrite Hseg, H.
  - intros H. now rewrite Hseg, (H12 H), H.
  - intros H. destruct (H13 H) as [H1 H2]. now rewrite Hseg, H1, H2, H.
  - intros (H1 & H2 & H3). now rewrite Hseg, H1, H2, H3.
  - intros H. apply andb_prop in H as [Hl Hr]. unfold geb, gtb in Hl, Hr.
    assert (H1 : (risk_score <=? 40) = false).
    { destruct (risk_score <=? 40) eqn:E; trivial.
      pose proof (leb_trans _ _ _ (ltb_leb _ _ Hr) E) as C. discriminate C. }
    rewrite Hseg. subst rule1 rule2 rule3.
    rewrite H1, (ltb_not_leb _ _ Hr), (leb_not_ltb _ _ Hl), !andb_false_r.
    reflexivity.
  - rewrite Hseg. destruct rule1, rule2, rule3; simpl; auto.
  - intros r <- <-. reflexivity.
Qed.

(** C4: the loss ratio is the claimed amount divided by the premium sum
    when the premium sum is above 0; otherwise, and so for a premium sum of
    0, it is the missing value NaN, which is not 0. *)
Theorem C4_loss_ratio (r : Metrics.t) :
  let premium := Metrics.annual_premium_sum r in
  let ratio := Lifetime.loss_ratio (calculate_lifetime_metrics_row r) in
  (gtb premium 0 = true -> ratio = Metrics.total_claim_amount r / premium) /\
  (gtb premium 0 = false -> is_nan ratio = true /\ (ratio =? 0) = false) /\
  ((premium =? 0) = true -> is_nan ratio = true /\ (ratio =? 0) = false).
Proof.
  intros premium ratio. subst premium ratio.
  unfold calculate_lifetime_metrics_row, Np.where_; simpl.
  split; [|split]; intros H.
  - now rewrite H.
  - rewrite H. split; reflexivity.
  - apply eqb_zero_not_gtb in H. unfold gtb. rewrite H. split; reflexivity.
Qed.

(** C6: the premium sum is the number of active policies times the average
    annual premium, the lifetime value is the premium sum minus the claimed
    amount, and it is negative for a customer whose claims exceed the
    premiums. *)
Theorem C6_premium_sum_and_lifetime_value :
  (forall r : Loaded.t,
      Metrics.annual_premium_sum (calculate_metrics_row r)
      = Analytics.active_policies (Loaded.df r)
        * Analytics.avg_annual_premium (Loaded.df r)) /\
  (forall r : Metrics.t,
      Lifetime.lifetime_value (calculate_lifetime_metrics_row r)
      = Metrics.annual_premium_sum r - Metrics.total_claim_amount r) /\
  (forall r : Analytics.t,
      annual_premium_sum (analyse_row r)
      = Analytics.active_policies r * Analytics.avg_annual_premium r /\
      lifetime_value (analyse_row r)
      = annual_premium_sum (analyse_row r) - total_claim_amount (analyse_row r)) /\
  lifetime_value (analyse_row Examples.loss_making) = -3000 /\
  (lifetime_value (analyse_row Examples.loss_making) <? 0) = true.
Proof.
  repeat split.
Qed.

(** At the scenario of the specification the frequency score is not 4 and
    the risk score is not 16.5. *)
Lemma C7_scenario_is_not_16_5 :
  ~ (annual_premium_sum (analyse_row Examples.scenario) = 2000 /\
     lifetime_value (analyse_row Examples.scenario) = 1500 /\
     loss_ratio (analyse_row Examples.scenario) = 0.25 /\
     frequency_score (lifetime_of (analyse_row Examples.scenario)) = 4 /\
     risk_score (analyse_row Examples.scenario) = 16.5 /\
     segment (analyse_row Examples.scenario) = "Premium Partner").
Proof.
  intros (_ & _ & _ & _ & H & _).
  apply (f_equal (fun x => x =? 16.5)) in H. vm_compute in H. discriminate H.
Qed.

(** C7, amended: for two active policies of 1000, claims of 500, no fraud
    detection, one claim and 365 days of tenure, the premium sum is 2000, the
    lifetime value 1500, the loss ratio 0.25 and its score 12.5, the fraud
    score 0; a year has 365.25 days, so that the claims per year are
    1 / (365 / 365.25), a little above 1, the frequency score is a little
    above 4 (4.0027...) and the risk score a little above 16.5 (16.5027...);
    the segment is "Premium Partner".  The risk score of every row is
    clip(loss_ratio * 50, 0, 50) + clip(fraud_claims * 3, 0, 30)
    + clip(claims_per_year * 4, 0, 20) with
    claims_per_year = total_claims / (max(policy_tenure_days, 1) / 365.25). *)
Theorem C7_scenario :
  let s := analyse_row Examples.scenario in
  annual_premium_sum s = 2000 /\
  lifetime_value s = 1500 /\
  loss_ratio s = 0.25 /\
  loss_ratio_score (lifetime_of s) = 12.5 /\
  fraud_score (lifetime_of s) = 0 /\
  claims_per_year (lifetime_of s) = 1 / (365 / 365.25) /\
  frequency_score (lifetime_of s) = 0x1.002ce33e6c02dp+2 /\
  (4 <? frequency_score (lifetime_of s)) = true /\
  (frequency_score (lifetime_of s) <? 4.00390625) = true /\
  risk_score s = 0x1.080b38cf9b00bp+4 /\
  (16.5 <? risk_score s) = true /\
  (risk_score s <? 16.50390625) = true /\
  segment s = "Premium Partner" /\
  (forall r : Analytics.t,
      risk_score (analyse_row r)
      = Np.clip (loss_ratio (analyse_row r) * 50) 0 50
        + Np.clip (fraud_claims (analyse_row r) * 3) 0 30
        + Np.clip (total_claims (analyse_row r)
                   / (Np.clip_lower (policy_tenure_days (analyse_row r)) 1 / 365.25)
                   * 4) 0 20).
Proof.
  cbv zeta. repeat split; vm_compute; reflexivity.
Qed.

(** C8: a customer whose premium sum is 0 has an undefined loss ratio and
    an undefined risk score; none of the three specific conditions holds of
    it, and the segment is "Watch List". *)
Theorem C8_zero_premium_watch_list (r : Analytics.t) :
  (annual_premium_sum (analyse_row r) =? 0) = true ->
  is_nan (loss_ratio (analyse_row r)) = true /\
  is_nan (risk_score (analyse_row r)) = true /\
  conditions (lifetime_value (analyse_row r)) (risk_score (analyse_row r))
  = [false; false; false; true] /\
  segment (analyse_row r) = "Watch List".
Proof.
  intros H.
  assert (Hl : loss_ratio (analyse_row r) = nan) by exact (loss_ratio_zero_premium _ H).
  assert (Hr : risk_score (analyse_row r) = nan).
  { apply (risk_score_nan (lifetime_of (analyse_row r))).
    fold (loss_ratio (analyse_row r)). now rewrite Hl. }
  rewrite Hl, Hr. repeat split.
  - apply conditions_nan.
  - unfold segment, analyse_row, assign_segments_row; simpl.
    fold (analyse_row r). unfold risk_score in Hr. simpl in Hr.
    unfold analyse_row in Hr. simpl in Hr.
    unfold segment_of. rewrite Hr, conditions_nan. reflexivity.
Qed.

Lemma C8_zero_premium_watch_list_witness :
  (annual_premium_sum (analyse_row Examples.lapsed) =? 0) = true /\
  segment (analyse_row Examples.lapsed) = "Watch List".
Proof.
  split; [reflexivity|].
  apply (C8_zero_premium_watch_list Examples.lapsed). reflexivity.
Defined.
End Stage2.

(** * Sorting, grouping and joining *)

Section Sorting.
Context {A : Type} (le : A -> A -> bool).

Lemma insert_by_perm (x : A) (l : list A) :
  Permutation (Np.insert_by le x l) (x :: l).
Proof.
  induction l as [|y l IH]; simpl.
  - reflexivity.
  - destruct (le x y).
    + reflexivity.
    + rewrite IH. apply perm_swap.
Qed.

Lemma sort_by_perm (l : list A) : Permutation (Np.sort_by le l) l.
Proof.
  induction l as [|x l IH]; simpl.
  - constructor.
  - unfold Np.sort_by in *. simpl. rewrite insert_by_perm. now constructor.
Qed.

Hypothesis le_total : forall a b, le a b = true \/ le b a = true.
Hypothesis le_trans : forall a b c, le a b = true -> le b c = true -> le a c = true.

Lemma insert_by_sorted (x : A) (l : list A) :
  StronglySorted (fun a b => le a b = true) l ->
  StronglySorted (fun a b => le a b = true) (Np.insert_by le x l).
Proof.
  induction 1 as [|y l Hs IH Hy]; simpl.
  - repeat constructor.
  - destruct (le x y) eqn:E.
    + constructor.
      * now constructor.
      * constructor; trivial.
        eapply Forall_impl; [|exact Hy]. intros z Hz. now apply le_trans with y.
    + constructor; trivial.
      eapply Permutation_Forall.
      * symmetry. apply insert_by_perm.
      * constructor; trivial.
        destruct (le_total x y) as [H|H]; congruence.
Qed.

Lemma sort_by_sorted (l : list A) :
  StronglySorted (fun a b => le a b = true) (Np.sort_by le l).
Proof.
  induction l as [|x l IH].
  - constructor.
  - unfold Np.sort_by in *. simpl. now apply insert_by_sorted.
Qed.
End Sorting.

Section Keys.
Local Open Scope string_scope.

Lemma unique_by_In (l : list string) (x : string) :
  In x (Np.unique_by String.eqb l) <-> In x l.
Proof.
  induction l as [|y l IH]; simpl.
  - tauto.
  - rewrite filter_In, IH, negb_true_iff, String.eqb_neq.
    destruct (string_dec y x); intuition congruence.
Qed.

Lemma unique_by_NoDup (l : list string) : NoDup (Np.unique_by String.eqb l).
Proof.
  induction l as [|y l IH]; simpl.
  - constructor.
  - constructor.
    + rewrite filter_In, negb_true_iff, String.eqb_neq. tauto.
    + now apply NoDup_filter.
Qed.

(** The keys of the groups are those of the rows, each once. *)
Lemma groupby_keys {A} (key : A -> option string) (rows : list A) :
  NoDup (map fst (Np.groupby key rows)) /\
  forall k, In k (map fst (Np.groupby key rows)) <-> exists r, In r rows /\ key r = Some k.
Proof.
  unfold Np.groupby. rewrite map_map, map_id. split.
  - eapply Permutation_NoDup.
    + symmetry. apply sort_by_perm.
    + apply unique_by_NoDup.
  - intros k. rewrite (Permutation_in' eq_refl (sort_by_perm _ _)).
    rewrite unique_by_In, in_flat_map. split.
    + intros (r & Hr & Hk). exists r. split; trivial.
      destruct (key r); simpl in Hk; intuition congruence.
    + intros (r & Hr & Hk). exists r. split; trivial. rewrite Hk. now left.
Qed.

Lemma find_none_iff {B} (f : B -> bool) (l : list B) :
  (forall b, In b l -> f b = false) -> find f l = None.
Proof.
  induction l as [|b l IH]; simpl; intros H; trivial.
  rewrite (H b) by now left. apply IH. intros; apply H; now right.
Qed.

Lemma filter_unique_key {B} (kr : B -> string) (k : option string) (right : list B) :
  NoDup (map kr right) ->
  filter (Np.key_matches kr k) right
  = match find (Np.key_matches kr k) right with Some b => [b] | None => [] end.
Proof.
  induction right as [|b right IH]; simpl; intros H; trivial.
  inversion H as [|? ? Hb Hr]; subst.
  destruct (Np.key_matches kr k b) eqn:E.
  - f_equal. rewrite (IH Hr), find_none_iff; trivial.
    intros b' Hb'. destruct k as [k|]; simpl in *; trivial.
    apply String.eqb_eq in E. apply String.eqb_neq. intros E'.
    apply Hb. rewrite E, <- E'. now apply in_map.
  - now apply IH.
Qed.

Lemma flat_map_singleton {A B} (f : A -> list B) (g : A -> B) (l : list A) :
  (forall a, f a = [g a]) -> flat_map f l = map g l.
Proof.
  intros H. induction l as [|a l IH]; simpl; trivial. now rewrite H, IH.
Qed.

(** A left join on a key that is unique on the right keeps the rows of the
    left table as they are, each with its match. *)
Lemma merge_left_unique {A B} (kl : A -> option string) (kr : B -> string)
      (left : list A) (right : list B) :
  NoDup (map kr right) ->
  Np.merge_left kl kr left right
  = map (fun a => (a, find (Np.key_matches kr (kl a)) right)) left.
Proof.
  intros H. unfold Np.merge_left. apply flat_map_singleton. intros a.
  rewrite (filter_unique_key kr (kl a) right H).
  destruct (find (Np.key_matches kr (kl a)) right); reflexivity.
Qed.

Lemma merge_left_fst {A B} (kl : A -> option string) (kr : B -> string)
      (left : list A) (right : list B) :
  NoDup (map kr right) ->
  map fst (Np.merge_left kl kr left right) = left.
Proof.
  intros H. rewrite (merge_left_unique kl kr left right H), map_map. apply map_id.
Qed.
End Keys.

Section ListFacts.



End ListFacts.

(** * The aggregator and the joiner *)

Section Stage1.
Import GenerateCustomerAnalytics.
Local Open Scope string_scope.
Local Open Scope float_scope.

Lemma policy_metrics_keys (policies : list Policy.t) :
  map pm_customer_id (policy_metrics policies)
  = map fst (Np.groupby (fun p => Some (Policy.customer_id p)) policies).
Proof. unfold policy_metrics. now rewrite map_map. Qed.

Lemma customer_claims_keys (policies : list Policy.t) (claims : list Claim.t) :
  NoDup (map cc_customer_id (customer_claims policies claims)).
Proof.
  unfold customer_claims. rewrite map_map. simpl. apply groupby_keys.
Qed.

Lemma customer_fraud_metrics_keys policies claims fraud :
  NoDup (map cf_customer_id (customer_fraud_metrics policies claims fraud)).
Proof.
  unfold customer_fraud_metrics. rewrite map_map. simpl. apply groupby_keys.
Qed.

Lemma first_policy_keys (i : Inputs) (w : World) :
  NoDup (map fp_customer_id (p_first_policy (fst (preprocess_data i w)))).
Proof.
  unfold preprocess_data. simpl. rewrite map_map. simpl. apply groupby_keys.
Qed.

(** The three left joins of step 5 keep the policy rollups as they are:
    one row of [customer_metrics] per customer that has a policy. *)
Lemma customer_metrics_policy (p : Preprocessed) :
  NoDup (map fp_customer_id (p_first_policy p)) ->
  map cmr_policy (customer_metrics p) = policy_metrics (p_policies p).
Proof.
  intros Hfp. unfold customer_metrics.
  transitivity
    (map fst (map fst (map fst
       (Np.merge_left (fun r => Some (pm_customer_id (fst (fst r)))) fp_customer_id
          (Np.merge_left (fun r => Some (pm_customer_id (fst r))) cf_customer_id
             (Np.merge_left (fun r => Some (pm_customer_id r)) cc_customer_id
                (policy_metrics (p_policies p))
                (customer_claims (p_policies p) (p_claims p)))
             (customer_fraud_metrics (p_policies p) (p_claims p) (p_fraud p)))
          (p_first_policy p))))).
  { now rewrite !map_map. }
  rewrite merge_left_fst by exact Hfp.
  rewrite merge_left_fst by apply customer_fraud_metrics_keys.
  rewrite merge_left_fst by apply customer_claims_keys.
  reflexivity.
Qed.

Lemma customer_metrics_keys (p : Preprocessed) :
  NoDup (map fp_customer_id (p_first_policy p)) ->
  NoDup (map (fun r => pm_customer_id (cmr_policy r)) (customer_metrics p)) /\
  forall k, In k (map (fun r => pm_customer_id (cmr_policy r)) (customer_metrics p))
            <-> exists q, In q (p_policies p) /\ Policy.customer_id q = k.
Proof.
  intros Hfp.
  rewrite <- (map_map cmr_policy pm_customer_id), (customer_metrics_policy p Hfp).
  rewrite policy_metrics_keys.
  destruct (groupby_keys (fun q => Some (Policy.customer_id q)) (p_policies p)) as [Hn Hk].
  split; trivial. intros k. rewrite Hk.
  split; intros (q & Hq & E); exists q; split; trivial; congruence.
Qed.

(** Step 5.4 gives one row per row of the customer table, in the order of
    that table. *)
Lemma create_customer_analytics_rows (p : Preprocessed) :
  NoDup (map fp_customer_id (p_first_policy p)) ->
  create_customer_analytics p
  = map (fun c =>
           final_row (select_dtypes p)
             (c, find (Np.key_matches (fun r => pm_customer_id (cmr_policy r))
                                      (Some (Customer.customer_id (base c))))
                      (customer_metrics p)))
        (p_customers p).
Proof.
  intros Hfp. unfold create_customer_analytics.
  rewrite merge_left_unique by apply (customer_metrics_keys p Hfp).
  now rewrite map_map.
Qed.

Lemma main_customer_ids (i : Inputs) (w : World) :
  map Analytics.customer_id (fst (main i w))
  = map Customer.customer_id (customers i).
Proof.
  unfold main. destruct (preprocess_data i w) as [p w'] eqn:E. simpl.
  assert (Hp : p = fst (preprocess_data i w)) by now rewrite E.
  rewrite create_customer_analytics_rows
    by (rewrite Hp; apply first_policy_keys).
  rewrite map_map. simpl. rewrite Hp. unfold preprocess_data. simpl.
  now rewrite map_map.
Qed.

(** The dtypes that step 6 finds are those of the tables as loaded. *)
Lemma select_dtypes_preprocess (i : Inputs) (w : World) :
  select_dtypes (fst (preprocess_data i w))
  = {| policy_rollups_numeric := has_rows (policies i);
       claim_rollups_numeric := has_rows (claims i);
       fraud_rollups_numeric := has_rows (fraud i) |}.
Proof. reflexivity. Qed.

End Stage1.

(** * The output of the pipeline *)

Section Output.
Import CustomerAnalytics F64.
Local Open Scope string_scope.
Local Open Scope float_scope.

(** The order of [sort_values] is total and transitive. *)
Lemma before_total (ascending : bool) (x y : float) :
  Pd.before ascending x y = true \/ Pd.before ascending y x = true.
Proof.
  unfold Pd.before.
  destruct (is_nan y) eqn:Hy; [now left|].
  destruct (is_nan x) eqn:Hx; [now right|]. simpl.
  destruct ascending, (leb_total x y Hx Hy); auto.
Qed.

Lemma before_trans (ascending : bool) (x y z : float) :
  Pd.before ascending x y = true -> Pd.before ascending y z = true ->
  Pd.before ascending x z = true.
Proof.
  unfold Pd.before.
  destruct (is_nan z) eqn:Hz; trivial. simpl.
  destruct (is_nan y) eqn:Hy; simpl; [discriminate|].
  destruct (is_nan x) eqn:Hx; simpl; [discriminate|].
  destruct ascending; intros H1 H2.
  - exact (leb_trans x y z H1 H2).
  - exact (leb_trans z y x H2 H1).
Qed.

Lemma traverse_total {A B} (f : A -> option B) (g : A -> B) (l : list A) :
  (forall a, f a = Some (g a)) -> Pd.traverse f l = Some (map g l).
Proof.
  intros H. induction l as [|a l IH]; simpl; trivial. now rewrite H, IH.
Qed.

Lemma getitem_output_cols (df : list Segmented.t) :
  getitem output_cols df
  = Some {| columns := output_cols; rows := map output_row df |}.
Proof.
  unfold getitem.
  change (forallb (fun c => existsb (String.eqb c) df_columns) output_cols) with true.
  cbv iota.
  assert (H : Pd.traverse (fun r => Pd.traverse (fun c => column c r) output_cols) df
              = Some (map output_row df)).
  { apply traverse_total. reflexivity. }
  now rewrite H.
Qed.

(** [main] never raises: it returns the eleven columns of [output_cols],
    the rows sorted on the third one. *)
Lemma main_eq (file : list Analytics.t) :
  main file
  = Some {| columns := output_cols;
            rows := Np.sort_by (fun a b => Pd.before false (row_lifetime_value a)
                                                     (row_lifetime_value b))
                               (map output_row (analyse file)) |}.
Proof.
  unfold main. rewrite getitem_output_cols. reflexivity.
Qed.

Lemma StronglySorted_weaken {A} (R S : A -> A -> Prop) (l : list A) :
  (forall a b, R a b -> S a b) -> StronglySorted R l -> StronglySorted S l.
Proof.
  intros H. induction 1 as [|a l Hs IH Ha]; constructor; trivial.
  eapply Forall_impl; [|exact Ha]. auto.
Qed.

(** C10: the table of the pipeline has exactly the columns customer_id,
    name, lifetime_value, loss_ratio, risk_score, segment, total_claims,
    total_claim_amount, annual_premium_sum, fraud_claims and
    policy_tenure_days; it has the rows computed for the customers, each
    with these eleven cells, and they are in descending order of
    lifetime_value: of two rows, the later one has a lifetime value that is
    at most that of the earlier one, missing lifetime values coming last. *)
Theorem C10_output_columns_and_order (i : GenerateCustomerAnalytics.Inputs) (w : World) :
  exists rs,
    fst (Pipeline.run i w)
    = Some {| columns := [ "customer_id"; "name"; "lifetime_value"; "loss_ratio";
                           "risk_score"; "segment"; "total_claims";
                           "total_claim_amount"; "annual_premium_sum";
                           "fraud_claims"; "policy_tenure_days" ];
              rows := rs |} /\
    Permutation rs (map output_row (analyse (fst (GenerateCustomerAnalytics.main i w)))) /\
    Forall (fun row => List.length row = 11%nat) rs /\
    StronglySorted
      (fun a b =>
         is_nan (row_lifetime_value b) = true \/
         (is_nan (row_lifetime_value a) = false /\
          (row_lifetime_value b <=? row_lifetime_value a) = true)) rs.
Proof.
  unfold Pipeline.run.
  destruct (GenerateCustomerAnalytics.main i w) as [table w'] eqn:E. simpl.
  rewrite main_eq. eexists. split; [reflexivity|].
  set (cmp := fun a b => Pd.before false (row_lifetime_value a) (row_lifetime_value b)).
  split; [apply sort_by_perm|]. split.
  - eapply Permutation_Forall; [symmetry; apply sort_by_perm|].
    apply Forall_forall. intros row Hrow.
    apply in_map_iff in Hrow as (s & <- & _). reflexivity.
  - apply StronglySorted_weaken with (R := fun a b => cmp a b = true).
    + intros a b. unfold cmp, Pd.before.
      destruct (is_nan (row_lifetime_value b)); [now left|].
      destruct (is_nan (row_lifetime_value a)); simpl; [discriminate|].
      intros H. right. now split.
    + apply sort_by_sorted.
      * intros a b. apply before_total.
      * intros a b c. apply before_trans.
Qed.

(** C9: two runs of the pipeline on the same tables, on machines whose
    clocks give the same reading when the run takes its snapshot of the
    current date, produce the same output table. *)
Theorem C9_same_snapshot_same_output
        (i : GenerateCustomerAnalytics.Inputs) (w1 w2 : World) :
  clock w1 (reads w1) = clock w2 (reads w2) ->
  fst (Pipeline.run i w1) = fst (Pipeline.run i w2).
Proof.
  intros H. unfold Pipeline.run, GenerateCustomerAnalytics.main,
    GenerateCustomerAnalytics.preprocess_data, to_datetime_today.
  simpl. now rewrite H.
Qed.

Lemma C9_same_snapshot_same_output_witness :
  clock Examples.world1 (reads Examples.world1)
  = clock Examples.world2 (reads Examples.world2) /\
  clock Examples.world1 1 <> clock Examples.world2 1 /\
  fst (Pipeline.run Examples.tables Examples.world1)
  = fst (Pipeline.run Examples.tables Examples.world2).
Proof.
  split; [reflexivity|]. split; [discriminate|].
  apply (C9_same_snapshot_same_output Examples.tables Examples.world1 Examples.world2).
  reflexivity.
Defined.

(** A run reads the clock once. *)
Lemma run_reads_clock_once (i : GenerateCustomerAnalytics.Inputs) (w : World) :
  reads (snd (Pipeline.run i w)) = S (reads w) /\
  clock (snd (Pipeline.run i w)) = clock w.
Proof. split; reflexivity. Qed.
End Output.

Section Completeness.
Import CustomerAnalytics F64.
Local Open Scope string_scope.
Local Open Scope float_scope.




End Completeness.

(** * The range of the risk score *)

Section RiskScoreRange.
Import CustomerAnalytics F64.
Local Open Scope string_scope.
Local Open Scope float_scope.

Lemma leb_refl (x : float) : is_nan x = false -> (x <=? x) = true.
Proof. intros H. destruct (leb_total x x H H); assumption. Qed.

Lemma ltb_false_leb (x y : float) :
  is_nan x = false -> is_nan y = false -> (x <? y) = false -> (y <=? x) = true.
Proof.
  intros Hx Hy H. destruct (leb_total x y Hx Hy) as [L|L]; trivial.
  revert H L. rewrite ltb_spec, !leb_spec, SFltb_cmp, !SFleb_cmp.
  rewrite (SFcompare_antisym (Prim2SF x) (Prim2SF y)).
  destruct (SFcompare (Prim2SF x) (Prim2SF y)) as [[]|]; simpl; congruence.
Qed.

Lemma leb_not_nan (x y : float) :
  (x <=? y) = true -> is_nan x = false /\ is_nan y = false.
Proof.
  intros H. split.
  - destruct (is_nan x) eqn:E; trivial. apply is_nan_spec in E. subst.
    now rewrite leb_nan_l in H.
  - destruct (is_nan y) eqn:E; trivial. apply is_nan_spec in E. subst.
    now rewrite leb_nan_r in H.
Qed.

(** [np.clip] bounds every value but the missing one, which it keeps. *)
Lemma clip_range (x lo hi : float) :
  (lo <=? hi) = true -> is_nan x = false ->
  (lo <=? Np.clip x lo hi) = true /\ (Np.clip x lo hi <=? hi) = true.
Proof.
  intros Hb Hx. destruct (leb_not_nan lo hi Hb) as [Hlo Hhi].
  unfold Np.clip. rewrite Hx.
  destruct (x <? lo) eqn:E1.
  - split; trivial. now apply leb_refl.
  - destruct (hi <? x) eqn:E2.
    + split; trivial. now apply leb_refl.
    + split; now apply ltb_false_leb.
Qed.

Lemma clip_nan (lo hi : float) : Np.clip nan lo hi = nan.
Proof. reflexivity. Qed.

(** The fraud and frequency components are within 0..30 and 0..20 when
    they are defined, and the loss-ratio component is within 0..50 when
    the loss ratio is. *)
Lemma components_range (r : Lifetime.t) :
  (is_nan (Lifetime.loss_ratio r * 50) = false ->
   (0 <=? loss_ratio_score r) = true /\ (loss_ratio_score r <=? 50) = true) /\
  (is_nan (Metrics.fraud_claims (Lifetime.df r) * 3) = false ->
   (0 <=? fraud_score r) = true /\ (fraud_score r <=? 30) = true) /\
  (is_nan (claims_per_year r * 4) = false ->
   (0 <=? frequency_score r) = true /\ (frequency_score r <=? 20) = true).
Proof.
  split; [|split]; intros H; apply clip_range; trivial.
Qed.

(** C1 fails on the code: in the output of the pipeline for the sample
    tables, the customer without a policy has a risk score that is NaN, and
    NaN is not within 0..100. *)
Theorem C1_risk_score_undefined_without_premium :
  exists out row,
    fst (Pipeline.run Examples.tables Examples.world1) = Some out /\
    rows_of_customer "B" out = [row] /\
    row = [ CText "B"; CText "Bob"; CNum 0; CNum nan; CNum nan; CText "Watch List";
            CNum 0; CNum 0; CNum 0; CNum 0; CNum 0 ] /\
    is_nan (row_risk_score row) = true /\
    (geb (row_risk_score row) 0 && (row_risk_score row <=? 100)) = false.
Proof.
  eexists. eexists. split; [vm_compute; reflexivity|].
  repeat split.
Qed.

(** C2 fails on the code: for a customer without an active policy (one
    claim of 700, two fraud detections, 265 days of tenure) the premium sum
    is 0 and the loss ratio undefined; the loss-ratio component is NaN and
    not 0, and the risk score is NaN, though the other two components are
    6 and about 5.51. *)
Theorem C2_undefined_loss_ratio_propagates :
  let r := lifetime_of (analyse_row Examples.lapsed) in
  Metrics.annual_premium_sum (Lifetime.df r) = 0 /\
  is_nan (Lifetime.loss_ratio r) = true /\
  is_nan (loss_ratio_score r) = true /\
  (loss_ratio_score r =? 0) = false /\
  fraud_score r = 6 /\
  frequency_score r = 0x1.60d86477c9e6ep+2 /\
  is_nan (risk_score (analyse_row Examples.lapsed)) = true /\
  (risk_score (analyse_row Examples.lapsed) =? 0 + fraud_score r + frequency_score r)
  = false.
Proof.
  cbv zeta. repeat split; vm_compute; reflexivity.
Qed.
End RiskScoreRange.

(** * More facts about binary64 floats *)

Section Binary64Arithmetic.
Local Open Scope float_scope.

Lemma is_nan_false (x : float) : Prim2SF x <> S754_nan -> is_nan x = false.
Proof.
intros H. unfold is_nan. rewrite eqb_spec. unfold SFeqb.
now rewrite SFcompare_refl.
Qed.

Lemma add_nan_r (x : float) : x + nan = nan.
Proof.
apply Prim2SF_inj. rewrite add_spec. change (Prim2SF nan) with S754_nan.
destruct (Prim2SF x); reflexivity.
Qed.

Lemma mul_nan_r (x : float) : x * nan = nan.
Proof.
apply Prim2SF_inj. rewrite mul_spec. change (Prim2SF nan) with S754_nan.
destruct (Prim2SF x); reflexivity.
Qed.

Lemma sub_nan_l (y : float) : nan - y = nan.
Proof. apply Prim2SF_inj. rewrite sub_spec. reflexivity. Qed.

Lemma div_nan_r (x : float) : x / nan = nan.
Proof.
apply Prim2SF_inj. rewrite div_spec. change (Prim2SF nan) with S754_nan.
destruct (Prim2SF x); reflexivity.
Qed.

(** Rounding a mantissa that is not negative never gives NaN. *)
Lemma shr_1_nonneg (mrs : shr_record) :
  (0 <= shr_m mrs)%Z -> (0 <= shr_m (shr_1 mrs))%Z.
Proof.
destruct mrs as [m r s]. simpl.
destruct m as [|[p|p|]|[p|p|]]; simpl; intros H; try lia.
Qed.

Lemma iter_shr_1_nonneg (p : positive) (mrs : shr_record) :
  (0 <= shr_m mrs)%Z -> (0 <= shr_m (iter_pos shr_1 p mrs))%Z.
Proof.
revert mrs. induction p as [p IH|p IH|]; simpl; intros mrs H.
- apply IH, IH. now apply shr_1_nonneg.
- now apply IH, IH.
- now apply shr_1_nonneg.
Qed.

Lemma shr_fexp_nonneg (m e : Z) (l : location) :
  (0 <= m)%Z -> (0 <= shr_m (fst (shr_fexp prec emax m e l)))%Z.
Proof.
intros H. unfold shr_fexp, shr.
assert (H0 : (0 <= shr_m (shr_record_of_loc m l))%Z).
{ destruct l as [|[]]; exact H. }
destruct (fexp prec emax (Zdigits2 m + e) - e)%Z; simpl; trivial.
now apply iter_shr_1_nonneg.
Qed.

Lemma round_nearest_even_nonneg (m : Z) (l : location) :
  (0 <= m)%Z -> (0 <= round_nearest_even m l)%Z.
Proof.
intros H. destruct l as [|[]]; simpl; trivial; try lia.
destruct (Z.even m); lia.
Qed.

Lemma binary_round_aux_not_nan (sx : bool) (mx ex : Z) (lx : location) :
  (0 <= mx)%Z -> binary_round_aux prec emax sx mx ex lx <> S754_nan.
Proof.
intros H. unfold binary_round_aux.
pose proof (shr_fexp_nonneg mx ex lx H) as H1.
destruct (shr_fexp prec emax mx ex lx) as [mrs' e']. simpl in H1.
pose proof (shr_fexp_nonneg _ e' loc_Exact
              (round_nearest_even_nonneg _ (loc_of_shr_record mrs') H1)) as H2.
destruct (shr_fexp prec emax (round_nearest_even (shr_m mrs') (loc_of_shr_record mrs'))
                   e' loc_Exact) as [mrs'' e'']. simpl in H2.
destruct (shr_m mrs''); try discriminate.
- destruct (e'' <=? emax - prec)%Z; discriminate.
- lia.
Qed.

(** The product of a defined value and a finite constant other than zero is
    defined. *)
Lemma mul_finite_not_nan (x c : float) (s : bool) (m : positive) (e : Z) :
  Prim2SF c = S754_finite s m e -> is_nan x = false -> is_nan (x * c) = false.
Proof.
intros Hc Hx. apply is_nan_false. rewrite mul_spec, Hc.
pose proof (not_nan_spec x Hx) as Hn.
destruct (Prim2SF x) as [sx|sx| |sx mx ex]; try discriminate; try contradiction.
apply binary_round_aux_not_nan. lia.
Qed.

(** Zero divided by a value above zero is zero. *)
Lemma div_zero_pos (x y : float) :
  (x =? 0) = true -> (0 <? y) = true -> (x / y =? 0) = true.
Proof.
rewrite !eqb_spec, ltb_spec, div_spec. change (Prim2SF 0) with (S754_zero false).
destruct (Prim2SF x) as [sx|[]| |[] mx ex]; try discriminate;
  destruct (Prim2SF y) as [sy|[]| |[] my ey]; try discriminate; reflexivity.
Qed.
End Binary64Arithmetic.

(** * Further properties of the metric calculator and the segmenter *)

Section Stage2Extras.
Import CustomerAnalytics F64.
Local Open Scope string_scope.
Local Open Scope float_scope.

Lemma segment_of_first_match (lifetime_value risk_score : float) :
  segment_of lifetime_value risk_score
  = if geb lifetime_value 0 && (risk_score <=? 40) then "Premium Partner"
    else if geb lifetime_value 0 && gtb risk_score 40 && (risk_score <=? 60)
         then "Growth Prospect"
         else if (lifetime_value <? 0) && gtb risk_score 60 then "Risk Management"
              else "Watch List".
Proof.
unfold segment_of, conditions, segments, Np.select.
repeat match goal with |- context [if ?b then _ else _] => destruct b end; reflexivity.
Qed.

(** No two of the three specific conditions hold together. *)
Lemma conditions_exclusive (lifetime_value risk_score : float) :
  let rule1 := geb lifetime_value 0 && (risk_score <=? 40) in
  let rule2 := geb lifetime_value 0 && gtb risk_score 40 && (risk_score <=? 60) in
  let rule3 := (lifetime_value <? 0) && gtb risk_score 60 in
  (rule2 = true -> rule1 = false) /\
  (rule3 = true -> rule1 = false /\ rule2 = false).
Proof.
cbv zeta. unfold geb, gtb. split.
- intros H. apply andb_prop in H as [H _]. apply andb_prop in H as [_ H].
  now rewrite (ltb_not_leb _ _ H), andb_false_r.
- intros H. apply andb_prop in H as [H _]. now rewrite (ltb_not_leb _ _ H).
Qed.

(** The label of a customer tells which rule fired: "Premium Partner" is
    given exactly when the lifetime value is at least 0 and the score at most
    40, "Growth Prospect" exactly when the lifetime value is at least 0 and
    the score is above 40 and at most 60, "Risk Management" exactly when the
    lifetime value is below 0 and the score above 60, and "Watch List"
    exactly when none of these holds.  So a customer with a negative
    lifetime value is "Risk Management" or "Watch List", never a partner or
    a prospect. *)
Theorem segment_identifies_rule (lifetime_value risk_score : float) :
  let rule1 := geb lifetime_value 0 && (risk_score <=? 40) in
  let rule2 := geb lifetime_value 0 && gtb risk_score 40 && (risk_score <=? 60) in
  let rule3 := (lifetime_value <? 0) && gtb risk_score 60 in
  let seg := segment_of lifetime_value risk_score in
  (seg = "Premium Partner" <-> rule1 = true) /\
  (seg = "Growth Prospect" <-> rule2 = true) /\
  (seg = "Risk Management" <-> rule3 = true) /\
  (seg = "Watch List" <-> rule1 = false /\ rule2 = false /\ rule3 = false) /\
  ((lifetime_value <? 0) = true -> seg = "Risk Management" \/ seg = "Watch List").
Proof.
intros rule1 rule2 rule3 seg.
pose proof (segment_of_first_match lifetime_value risk_score) as Hseg.
destruct (conditions_exclusive lifetime_value risk_score) as [H21 H3].
fold rule1 rule2 rule3 seg in Hseg, H21, H3.
assert (Hneg : (lifetime_value <? 0) = true -> rule1 = false /\ rule2 = false).
{ intros H. subst rule1 rule2. unfold geb. now rewrite (ltb_not_leb _ _ H). }
clearbody rule1 rule2 rule3 seg.
destruct rule1, rule2, rule3; rewrite Hseg;
  try (specialize (H21 eq_refl); discriminate H21);
  try (destruct (H3 eq_refl) as [? ?]; discriminate);
  (repeat split; try discriminate; try tauto; try (intros (? & ? & ?); discriminate);
   try (intros H; destruct (Hneg H); discriminate)).
Qed.

(** A row whose number of active policies or whose average premium is
    missing has no premium sum: its lifetime value, loss ratio and risk score
    are missing too, and it is put on the "Watch List". *)
Theorem missing_premium_watch_list (r : Analytics.t) :
  is_nan (Analytics.active_policies r) = true \/
  is_nan (Analytics.avg_annual_premium r) = true ->
  is_nan (annual_premium_sum (analyse_row r)) = true /\
  is_nan (lifetime_value (analyse_row r)) = true /\
  is_nan (loss_ratio (analyse_row r)) = true /\
  is_nan (risk_score (analyse_row r)) = true /\
  segment (analyse_row r) = "Watch List".
Proof.
intros H.
assert (Ha : annual_premium_sum (analyse_row r) = nan).
{ unfold annual_premium_sum; simpl.
  destruct H as [H|H]; apply is_nan_spec in H; rewrite H.
  - apply mul_nan_l.
  - apply mul_nan_r. }
assert (Hv : lifetime_value (analyse_row r) = nan).
{ unfold lifetime_value; simpl. unfold annual_premium_sum in Ha; simpl in Ha.
  rewrite Ha. apply sub_nan_l. }
assert (Hl : loss_ratio (analyse_row r) = nan).
{ unfold loss_ratio; simpl. unfold annual_premium_sum in Ha; simpl in Ha.
  rewrite Ha. reflexivity. }
assert (Hr : risk_score (analyse_row r) = nan).
{ apply (risk_score_nan (lifetime_of (analyse_row r))).
  fold (loss_ratio (analyse_row r)). now rewrite Hl. }
rewrite Ha, Hv, Hl, Hr. repeat split.
unfold segment, analyse_row, assign_segments_row; simpl.
unfold risk_score, analyse_row in Hr; simpl in Hr.
unfold segment_of. now rewrite Hr, conditions_nan.
Qed.

Lemma missing_premium_watch_list_witness :
  segment (analyse_row (Examples.row "C9" nan 1000 1 100 0 365)) = "Watch List".
Proof.
apply (missing_premium_watch_list (Examples.row "C9" nan 1000 1 100 0 365)).
left. reflexivity.
Defined.

Lemma eqb_zero_facts (x : float) :
  (x =? 0) = true ->
  is_nan x = false /\ (x <? 0) = false /\ (50 <? x) = false.
Proof.
intros H. split; [|split].
- destruct (is_nan x) eqn:E; trivial. apply is_nan_spec in E. now subst.
- revert H. rewrite eqb_spec, ltb_spec. change (Prim2SF 0) with (S754_zero false).
  destruct (Prim2SF x) as [s|[]| |[] m e]; try discriminate; reflexivity.
- revert H. rewrite eqb_spec, ltb_spec.
  change (Prim2SF 0) with (S754_zero false).
  change (Prim2SF 50) with (S754_finite false 7036874417766400 (-47)).
  destruct (Prim2SF x) as [s|[]| |[] m e]; try discriminate; reflexivity.
Qed.

Lemma mul_zero_finite (x c : float) (s : bool) (m : positive) (e : Z) :
  Prim2SF c = S754_finite s m e -> (x =? 0) = true -> (x * c =? 0) = true.
Proof.
intros Hc. rewrite !eqb_spec, mul_spec, Hc. change (Prim2SF 0) with (S754_zero false).
destruct (Prim2SF x) as [sx|[]| |[] mx ex]; try discriminate; reflexivity.
Qed.

(** Zero losses are not a missing loss ratio: with a premium sum above 0
    and no claimed amount (a missing amount counts as 0), the loss ratio is
    0 and so is its component of the risk score. *)
Theorem zero_losses_zero_loss_ratio (r : Analytics.t) :
  gtb (annual_premium_sum (analyse_row r)) 0 = true ->
  (total_claim_amount (analyse_row r) =? 0) = true ->
  (loss_ratio (analyse_row r) =? 0) = true /\
  is_nan (loss_ratio (analyse_row r)) = false /\
  (loss_ratio_score (lifetime_of (analyse_row r)) =? 0) = true.
Proof.
intros Hp Hc.
assert (Hl : (loss_ratio (analyse_row r) =? 0) = true).
{ unfold loss_ratio; simpl. unfold annual_premium_sum in Hp; simpl in Hp.
  unfold Np.where_. rewrite Hp. apply div_zero_pos; trivial. }
split; trivial. split; [apply (eqb_zero_facts _ Hl)|].
unfold loss_ratio_score. fold (loss_ratio (analyse_row r)).
assert (Hm : (loss_ratio (analyse_row r) * 50 =? 0) = true).
{ eapply mul_zero_finite; [|exact Hl]. vm_compute. reflexivity. }
destruct (eqb_zero_facts _ Hm) as (Hn & Hlo & Hhi).
unfold Np.clip. now rewrite Hn, Hlo, Hhi.
Qed.

Lemma zero_losses_zero_loss_ratio_witness :
  (loss_ratio (analyse_row (Examples.row "C8" 2 1000 0 nan 0 365)) =? 0) = true.
Proof.
apply (zero_losses_zero_loss_ratio (Examples.row "C8" 2 1000 0 nan 0 365));
  reflexivity.
Defined.

Lemma fillna_not_nan (x : float) : is_nan (Np.fillna 0 x) = false.
Proof. unfold Np.fillna. destruct (is_nan x) eqn:E; trivial. Qed.

(** The fraud component lies within 0..30 for every row of the file, also
    when the detection count is missing, negative or huge. *)
Theorem fraud_score_range (r : Analytics.t) :
  (0 <=? fraud_score (lifetime_of (analyse_row r))) = true /\
  (fraud_score (lifetime_of (analyse_row r)) <=? 30) = true.
Proof.
unfold fraud_score. apply clip_range; [reflexivity|]. simpl.
eapply mul_finite_not_nan; [vm_compute; reflexivity|apply fillna_not_nan].
Qed.
End Stage2Extras.

(** * Further properties of the aggregator and the joiner *)

Section Stage1Extras.
Import GenerateCustomerAnalytics.
Local Open Scope string_scope.
Local Open Scope float_scope.

Lemma unique_by_incl {A} (eqb : A -> A -> bool) (l : list A) (x : A) :
  In x (Np.unique_by eqb l) -> In x l.
Proof.
revert x. induction l as [|y l IH]; simpl; intros x H; trivial.
destruct H as [H|H]; auto. apply filter_In in H as [H _]. auto.
Qed.

(** The group of a key holds the rows of that key, in table order. *)
Lemma groupby_group {A} (key : A -> option string) (rows : list A)
      (k : string) (g : list A) :
  In (k, g) (Np.groupby key rows) ->
  g = filter (fun r => match key r with
                       | Some k' => String.eqb k' k
                       | None => false
                       end) rows.
Proof.
unfold Np.groupby. intros H. apply in_map_iff in H as (k0 & [= <- <-] & _).
reflexivity.
Qed.

(** Looking a key up in a rollup gives the rollup of its group. *)
Lemma find_rollup {A B} (key : A -> option string) (rows : list A)
      (build : string * list A -> B) (kb : B -> string) (k : string) :
  (forall g, kb (build g) = fst g) ->
  find (Np.key_matches kb (Some k)) (map build (Np.groupby key rows))
  = if existsb (fun r => match key r with
                         | Some k' => String.eqb k' k
                         | None => false
                         end) rows
    then Some (build (k, filter (fun r => match key r with
                                          | Some k' => String.eqb k' k
                                          | None => false
                                          end) rows))
    else None.
Proof.
intros Hkb.
destruct (groupby_keys key rows) as [_ Hkeys].
destruct (existsb _ rows) eqn:E.
- apply existsb_exists in E as (r & Hr & Hk).
  destruct (key r) as [k'|] eqn:Ek; [|discriminate].
  apply String.eqb_eq in Hk. subst k'.
  assert (Hin : In k (map fst (Np.groupby key rows))) by (apply Hkeys; eauto).
  apply in_map_iff in Hin as ([k0 g] & Hk0 & Hg). simpl in Hk0. subst k0.
  pose proof (groupby_group key rows k g Hg) as ->.
  destruct (find _ (map build (Np.groupby key rows))) as [b|] eqn:F.
  + apply find_some in F as [Hb Hm]. apply in_map_iff in Hb as ([k1 g1] & <- & Hg1).
    simpl in Hm. rewrite Hkb in Hm. simpl in Hm. apply String.eqb_eq in Hm. subst k1.
    now rewrite (groupby_group key rows k g1 Hg1).
  + exfalso. pose proof (find_none _ _ F _ (in_map build _ _ Hg)) as Hf.
    simpl in Hf. rewrite Hkb in Hf. simpl in Hf. now rewrite String.eqb_refl in Hf.
- apply find_none_iff. intros b Hb. apply in_map_iff in Hb as ([k1 g1] & <- & Hg1).
  simpl. rewrite Hkb. simpl. apply String.eqb_neq. intros ->.
  assert (Hin : In k (map fst (Np.groupby key rows))).
  { apply (in_map fst) in Hg1. exact Hg1. }
  apply Hkeys in Hin as (r & Hr & Hk).
  assert (existsb (fun r => match key r with
                            | Some k' => String.eqb k' k
                            | None => false
                            end) rows = true).
  { apply existsb_exists. exists r. split; trivial. rewrite Hk. apply String.eqb_refl. }
  congruence.
Qed.

Lemma merge_left_In {A B} (kl : A -> option string) (kr : B -> string)
      (left : list A) (right : list B) (a : A) (ob : option B) :
  In (a, ob) (Np.merge_left kl kr left right) ->
  In a left /\
  match ob with
  | Some b => In b right /\ Np.key_matches kr (kl a) b = true
  | None => True
  end.
Proof.
unfold Np.merge_left. intros H. apply in_flat_map in H as (a0 & Ha0 & H).
destruct (filter (Np.key_matches kr (kl a0)) right) as [|b0 ms] eqn:E.
- destruct H as [[= <- <-]|[]]. now split.
- apply in_map_iff in H as (b & [= <- <-] & Hb). split; trivial.
  rewrite <- E in Hb. apply filter_In in Hb. exact Hb.
Qed.

Lemma policy_customer_map_In (policies : list Policy.t) (pc : string * string) :
  In pc (policy_customer_map policies) ->
  exists q, In q policies /\ Policy.policy_id q = fst pc /\ Policy.customer_id q = snd pc.
Proof.
unfold policy_customer_map. intros H. apply unique_by_incl in H.
apply in_map_iff in H as (q & <- & Hq). eauto.
Qed.

Lemma sum_all_missing (l : list float) :
  Forall (fun y => y = nan) l -> Np.sum l = 0 /\ Np.mean l = nan.
Proof.
intros H. assert (E : Np.dropna l = []).
{ induction H as [|y l -> _ IH]; simpl; trivial. }
unfold Np.mean, Np.sum. now rewrite E.
Qed.

(** The row of [customer_metrics] of a customer with a policy: the policy
    rollup of the customer with what each left join finds for the customer. *)
Lemma customer_metrics_rows (p : Preprocessed) :
  NoDup (map fp_customer_id (p_first_policy p)) ->
  customer_metrics p
  = map (fun pm =>
           (((pm,
              find (Np.key_matches cc_customer_id (Some (pm_customer_id pm)))
                   (customer_claims (p_policies p) (p_claims p))),
             find (Np.key_matches cf_customer_id (Some (pm_customer_id pm)))
                  (customer_fraud_metrics (p_policies p) (p_claims p) (p_fraud p))),
            find (Np.key_matches fp_customer_id (Some (pm_customer_id pm)))
                 (p_first_policy p)))
        (policy_metrics (p_policies p)).
Proof.
intros Hfp. unfold customer_metrics.
rewrite (merge_left_unique _ cc_customer_id) by apply customer_claims_keys.
rewrite (merge_left_unique _ cf_customer_id) by apply customer_fraud_metrics_keys.
rewrite (merge_left_unique _ fp_customer_id) by exact Hfp.
now rewrite !map_map.
Qed.

(** What the last join finds for a customer id: the row of the customer's
    policies when there is one, nothing otherwise. *)
Lemma customer_metrics_find (i : Inputs) (w : World) (k : string) :
  let p := fst (preprocess_data i w) in
  find (Np.key_matches (fun r => pm_customer_id (cmr_policy r)) (Some k))
       (customer_metrics p)
  = match policies_of k (policies i) with
    | [] => None
    | own =>
        let pm := {| pm_customer_id := k;
                     pm_total_policies := F64.of_nat (List.length own);
                     pm_active_policies :=
                       F64.of_nat (List.length
                                     (filter (fun q => String.eqb (Policy.status q) "ACTIVE")
                                             own));
                     pm_avg_annual_premium := Np.mean (map Policy.annual_premium own);
                     pm_total_coverage := Np.sum (map Policy.coverage_amount own);
                     pm_policy_types := Np.value_counts (map Policy.policy_type own);
                     pm_policy_ids := map Policy.policy_id own |} in
        Some (((pm,
                find (Np.key_matches cc_customer_id (Some k))
                     (customer_claims (policies i) (claims i))),
               find (Np.key_matches cf_customer_id (Some k))
                    (customer_fraud_metrics (policies i) (claims i) (fraud i))),
              find (Np.key_matches fp_customer_id (Some k)) (p_first_policy p))
    end.
Proof.
intros p.
rewrite (customer_metrics_rows p (first_policy_keys i w)).
unfold policy_metrics. rewrite map_map.
rewrite (find_rollup (fun q => Some (Policy.customer_id q)) (p_policies p) _
                     (fun r => pm_customer_id (cmr_policy r)) k)
  by reflexivity.
change (p_policies p) with (policies i).
change (p_claims p) with (claims i). change (p_fraud p) with (fraud i).
fold (policies_of k (policies i)).
unfold policies_of at 1.
destruct (existsb _ (policies i)) eqn:E.
- destruct (policies_of k (policies i)) as [|q own] eqn:Eo; [|reflexivity].
  exfalso. apply existsb_exists in E as (q & Hq & Hk).
  assert (In q (policies_of k (policies i))) by (apply filter_In; now split).
  rewrite Eo in H. contradiction.
- destruct (policies_of k (policies i)) as [|q own] eqn:Eo; [reflexivity|].
  exfalso. assert (Hq : In q (policies_of k (policies i))) by (rewrite Eo; now left).
  apply filter_In in Hq as [Hq Hk].
  assert (existsb (fun q => String.eqb (Policy.customer_id q) k) (policies i) = true).
  { apply existsb_exists. eauto. }
  congruence.
Qed.

(** The rows of the table that [main] saves, one for each row of the
    customer table. *)
Lemma main_rows (i : Inputs) (w : World) :
  fst (main i w)
  = map (fun c =>
           final_row (select_dtypes (fst (preprocess_data i w)))
             ({| base := c;
                 customer_tenure_days :=
                   days_since (clock w (reads w)) (Customer.registration_date c) |},
              find (Np.key_matches (fun r => pm_customer_id (cmr_policy r))
                                   (Some (Customer.customer_id c)))
                   (customer_metrics (fst (preprocess_data i w)))))
        (customers i).
Proof.
unfold main. destruct (preprocess_data i w) as [p w'] eqn:E. simpl.
assert (Hp : p = fst (preprocess_data i w)) by now rewrite E.
rewrite create_customer_analytics_rows by (rewrite Hp; apply first_policy_keys).
rewrite Hp. unfold preprocess_data at 3. simpl. now rewrite map_map.
Qed.

(** The table that the first script saves follows the customer table row
    by row: same length, same customer ids and names in the same order, also
    when an id occurs twice.  A policy that names a customer who is not in
    the customer table adds no row, and the output of the pipeline has one
    row for each row of the customer table. *)
Theorem table_follows_customers (i : Inputs) (w : World) :
  map (fun row => (Analytics.customer_id row, Analytics.name row)) (fst (main i w))
  = map (fun c => (Customer.customer_id c, Customer.name c)) (customers i) /\
  List.length (fst (main i w)) = List.length (customers i) /\
  (forall q row,
      In q (policies i) ->
      ~ In (Policy.customer_id q) (map Customer.customer_id (customers i)) ->
      In row (fst (main i w)) ->
      Analytics.customer_id row <> Policy.customer_id q) /\
  (exists out,
      fst (Pipeline.run i w) = Some out /\
      List.length (rows out) = List.length (customers i)).
Proof.
split; [|split; [|split]].
- rewrite main_rows, map_map. reflexivity.
- now rewrite main_rows, length_map.
- intros q row Hq Hno Hrow E. apply Hno. rewrite <- E, <- (main_customer_ids i w).
  now apply in_map.
- unfold Pipeline.run. pose proof (main_rows i w) as Hm.
  destruct (main i w) as [table w'] eqn:E. simpl in *.
  rewrite main_eq. eexists. split; [reflexivity|]. simpl.
  rewrite (Permutation_length (sort_by_perm _ _)), analyse_map, !length_map.
  now rewrite Hm, length_map.
Qed.

(** The policy columns of a row are rolled up from the policies of that
    customer and from no other: policy_ids lists them in the order of the
    policy table, total_policies counts them, active_policies counts those
    whose status is exactly "ACTIVE", avg_annual_premium and total_coverage
    are the mean and the sum over them, added with compensation.  A customer
    without a policy has no policy_ids, no policy_types and 0 in
    total_policies; its active_policies, avg_annual_premium and
    total_coverage are 0 when the policy table has a row, and missing when
    that table holds its header only. *)
Theorem policy_rollup_of_customer (i : Inputs) (w : World) (row : Analytics.t) :
  In row (fst (main i w)) ->
  let own := policies_of (Analytics.customer_id row) (policies i) in
  (own = [] ->
   let unmatched := if has_rows (policies i) then 0 else nan in
   Analytics.policy_ids row = None /\ Analytics.policy_types row = None /\
   Analytics.total_policies row = 0 /\ Analytics.active_policies row = unmatched /\
   Analytics.avg_annual_premium row = unmatched /\
   Analytics.total_coverage row = unmatched) /\
  (own <> [] ->
   Analytics.policy_ids row = Some (map Policy.policy_id own) /\
   Analytics.policy_types row = Some (Np.value_counts (map Policy.policy_type own)) /\
   Analytics.total_policies row = Np.fillna 0 (F64.of_nat (List.length own)) /\
   Analytics.active_policies row
   = Np.fillna 0 (F64.of_nat
                    (List.length
                       (filter (fun q => String.eqb (Policy.status q) "ACTIVE") own))) /\
   Analytics.avg_annual_premium row
   = Np.fillna 0 (Np.mean (map Policy.annual_premium own)) /\
   Analytics.total_coverage row
   = Np.fillna 0 (Np.sum (map Policy.coverage_amount own))).
Proof.
intros Hrow. rewrite main_rows in Hrow. apply in_map_iff in Hrow as (c & <- & Hc).
cbv zeta. rewrite customer_metrics_find, select_dtypes_preprocess.
change (Analytics.customer_id (final_row _ _)) with (Customer.customer_id c).
destruct (policies_of (Customer.customer_id c) (policies i)) as [|q own] eqn:E.
- split; [|congruence]. intros _. destruct (has_rows (policies i)); now repeat split.
- split; [discriminate|]. intros _.
  assert (Hq : In q (policies i)).
  { assert (H : In q (policies_of (Customer.customer_id c) (policies i)))
      by (rewrite E; now left).
    apply filter_In in H. apply H. }
  destruct (policies i) as [|q0 qs]; [contradiction|]. now repeat split.
Qed.

Lemma policy_rollup_of_customer_witness :
  exists row,
    In row (fst (main MoreExamples.tenths_tables Examples.world1)) /\
    Analytics.customer_id row = "A" /\
    Analytics.policy_ids row = Some ["P"; "P"; "P"] /\
    Analytics.total_coverage row = 0x1.3333333333333p-1 /\
    Analytics.avg_annual_premium row = 0x1.3333333333333p-1 / 3.
Proof.
eexists. split; [|split].
- simpl. left. reflexivity.
- reflexivity.
- pose proof (proj2 (policy_rollup_of_customer MoreExamples.tenths_tables
                       Examples.world1 _ (or_introl eq_refl))) as H.
  cbv zeta in H.
  assert (Hown : policies_of "A" (policies MoreExamples.tenths_tables) <> [])
    by discriminate.
  destruct (H Hown) as (H1 & _ & _ & _ & H2 & H3).
  split; [exact H1|].
  split; [refine (eq_trans H3 _)|refine (eq_trans H2 _)]; vm_compute; reflexivity.
Defined.

Lemma min_date_none (xs : list (option Z)) :
  Np.min_date xs = None <-> forall x, In x xs -> x = None.
Proof.
unfold Np.min_date.
assert (G : forall acc,
           fold_left (fun acc x : option Z =>
                        match acc, x with
                        | None, _ => x
                        | _, None => acc
                        | Some a, Some b => Some (Z.min a b)
                        end) xs acc = None
           <-> acc = None /\ forall x, In x xs -> x = None).
{ induction xs as [|x xs IH]; intros acc; simpl.
  - intuition.
  - rewrite IH. destruct acc as [a|], x as [b|].
    + split; intros [H _]; discriminate.
    + split; intros [H _]; discriminate.
    + split; [intros [H _]; discriminate|].
      intros [_ H]. specialize (H (Some b) (or_introl eq_refl)). discriminate.
    + split; intros [_ H]; (split; [reflexivity|]).
      * intros y [<-|Hy]; auto.
      * intros y Hy. apply H. now right. }
rewrite G. intuition.
Qed.

Lemma min_date_some (xs : list (option Z)) (m : Z) :
  Np.min_date xs = Some m ->
  In (Some m) xs /\ forall d, In (Some d) xs -> (m <= d)%Z.
Proof.
unfold Np.min_date.
assert (G : forall acc,
           fold_left (fun acc x : option Z =>
                        match acc, x with
                        | None, _ => x
                        | _, None => acc
                        | Some a, Some b => Some (Z.min a b)
                        end) xs acc = Some m ->
           (acc = Some m \/ In (Some m) xs) /\
           (forall a, acc = Some a -> (m <= a)%Z) /\
           (forall d, In (Some d) xs -> (m <= d)%Z)).
{ induction xs as [|x xs IH]; intros acc; simpl.
  - intros ->. split; [now left|]. split; [intros a [= ->]; lia|tauto].
  - intros H. apply IH in H as (Hin & Hle & Hd).
    destruct acc as [a|], x as [b|].
    + split; [|split].
      * destruct Hin as [[= E]|Hin]; [|right; now right].
        destruct (Z.min_spec a b) as [[_ E']|[_ E']]; rewrite E' in E; subst; auto.
      * intros a' [= <-]. specialize (Hle _ eq_refl). lia.
      * intros d [[= <-]|Hd']; [specialize (Hle _ eq_refl); lia|auto].
    + split; [|split]; auto.
      * destruct Hin; auto.
      * intros d [E|Hd']; [discriminate|auto].
    + split; [|split].
      * destruct Hin as [E|Hin]; right; auto.
      * discriminate.
      * intros d [[= <-]|Hd']; [apply Hle; reflexivity|auto].
    + split; [|split].
      * destruct Hin as [E|Hin]; [discriminate|]. right. now right.
      * discriminate.
      * intros d [E|Hd']; [discriminate|auto]. }
intros H. apply G in H as ([E|Hin] & _ & Hd); [discriminate|]. now split.
Qed.

(** The policy tenure of a row counts the whole days from the earliest
    start date among the policies of that customer to the snapshot of the
    current date; start dates that are missing are passed over.  It is 0 for a
    customer who has no policy, or no policy with a start date. *)
Theorem policy_tenure_from_earliest_start (i : Inputs) (w : World) (row : Analytics.t) :
  In row (fst (main i w)) ->
  let starts := map Policy.start_date
                    (policies_of (Analytics.customer_id row) (policies i)) in
  Analytics.policy_tenure_days row
  = Np.fillna 0 (days_since (clock w (reads w)) (Np.min_date starts)) /\
  (Np.min_date starts = None <-> forall d, In d starts -> d = None) /\
  (Np.min_date starts = None -> Analytics.policy_tenure_days row = 0) /\
  (forall m, Np.min_date starts = Some m ->
             In (Some m) starts /\ forall d, In (Some d) starts -> (m <= d)%Z).
Proof.
intros Hrow. rewrite main_rows in Hrow. apply in_map_iff in Hrow as (c & <- & Hc).
cbv zeta.
change (Analytics.customer_id (final_row _ _)) with (Customer.customer_id c).
set (k := Customer.customer_id c).
assert (Ht : Analytics.policy_tenure_days
               (final_row (select_dtypes (fst (preprocess_data i w)))
                  ({| base := c;
                      customer_tenure_days :=
                        days_since (clock w (reads w)) (Customer.registration_date c) |},
                   find (Np.key_matches (fun r => pm_customer_id (cmr_policy r)) (Some k))
                        (customer_metrics (fst (preprocess_data i w)))))
             = Np.fillna 0 (days_since (clock w (reads w))
                                       (Np.min_date (map Policy.start_date
                                                         (policies_of k (policies i)))))).
{ rewrite customer_metrics_find.
  destruct (policies_of k (policies i)) as [|q own] eqn:E; [reflexivity|].
  cbv zeta. unfold final_row. simpl.
  unfold preprocess_data. simpl.
  rewrite (find_rollup (fun q => Some (Policy.customer_id q)) (policies i) _
                       fp_customer_id k) by reflexivity.
  fold (policies_of k (policies i)).
  replace (existsb _ (policies i)) with true.
  - rewrite E. reflexivity.
  - symmetry. apply existsb_exists. exists q.
    assert (Hq : In q (policies_of k (policies i))) by (rewrite E; now left).
    apply filter_In in Hq. exact Hq. }
split; [exact Ht|].
split; [|split].
- apply min_date_none.
- intros E. rewrite Ht, E. reflexivity.
- intros m Hm. now apply min_date_some.
Qed.

Lemma policy_tenure_from_earliest_start_witness :
  exists row,
    In row (fst (main Examples.tables Examples.world1)) /\
    Analytics.customer_id row = "A" /\
    Analytics.policy_tenure_days row = 365.
Proof.
eexists. split; [|split].
- simpl. left. reflexivity.
- reflexivity.
- refine (eq_trans
            (proj1 (policy_tenure_from_earliest_start
                      Examples.tables Examples.world1 _ _)) _).
  + simpl. left. reflexivity.
  + vm_compute. reflexivity.
Defined.

(** The two rates are guarded against a division by zero: a row without
    policies has no claims per policy, and a row without claims has no fraud
    rate (the missing value, not an infinity); every other row has the plain
    quotient. *)
Theorem rates_guarded (i : Inputs) (w : World) (row : Analytics.t) :
  In row (fst (main i w)) ->
  ((Analytics.total_policies row =? 0) = true ->
   is_nan (Analytics.claims_per_policy row) = true) /\
  ((Analytics.total_policies row =? 0) = false ->
   Analytics.claims_per_policy row
   = Analytics.total_claims row / Analytics.total_policies row) /\
  ((Analytics.total_claims row =? 0) = true ->
   is_nan (Analytics.fraud_rate row) = true) /\
  ((Analytics.total_claims row =? 0) = false ->
   Analytics.fraud_rate row
   = Analytics.detection_count row / Analytics.total_claims row).
Proof.
intros Hrow. rewrite main_rows in Hrow. apply in_map_iff in Hrow as (c & <- & _).
match goal with |- context [final_row ?d ?x] => set (r := final_row d x) end.
change (Analytics.claims_per_policy r)
  with (Analytics.total_claims r / Np.replace_zero_nan (Analytics.total_policies r)).
change (Analytics.fraud_rate r)
  with (Analytics.detection_count r / Np.replace_zero_nan (Analytics.total_claims r)).
unfold Np.replace_zero_nan.
repeat split; intros H; rewrite H; trivial; now rewrite div_nan_r.
Qed.

Lemma rates_guarded_witness :
  exists row,
    In row (fst (main Examples.tables Examples.world1)) /\
    Analytics.customer_id row = "B" /\
    is_nan (Analytics.claims_per_policy row) = true.
Proof.
eexists. split; [|split].
- simpl. right. left. reflexivity.
- reflexivity.
- refine (proj1 (rates_guarded Examples.tables Examples.world1 _ _) _).
  + simpl. right. left. reflexivity.
  + reflexivity.
Defined.

Lemma claims_metrics_In (claims : list Claim.t) (b : ClaimsMetrics) :
  In b (claims_metrics claims) ->
  exists cl, In cl claims /\ Claim.policy_id cl = cm_policy_id b.
Proof.
unfold claims_metrics. intros H. apply in_map_iff in H as ([k g] & <- & Hg). simpl.
destruct (groupby_keys (fun c => Some (Claim.policy_id c)) claims) as [_ Hk].
apply (in_map fst) in Hg. apply Hk in Hg as (cl & Hcl & [= E]). eauto.
Qed.

(** The claim rollup of a customer none of whose policies has a claim. *)
Lemma customer_claims_no_claims (policies : list Policy.t) (claims : list Claim.t)
      (k : string) (cc : CustomerClaims) :
  (forall q cl, In q (policies_of k policies) -> In cl claims ->
                Claim.policy_id cl <> Policy.policy_id q) ->
  find (Np.key_matches cc_customer_id (Some k)) (customer_claims policies claims) = Some cc ->
  cc_total_claims cc = 0 /\ cc_total_claimed_amount cc = 0 /\ cc_avg_claim_amount cc = nan.
Proof.
intros Hno F. apply find_some in F as [Hin Hk]. simpl in Hk. apply String.eqb_eq in Hk.
unfold customer_claims in Hin. apply in_map_iff in Hin as ([k' g] & <- & Hg).
simpl in Hk. subst k'. simpl.
pose proof (groupby_group _ _ _ _ Hg) as Eg.
assert (Hnone : Forall (fun o : option ClaimsMetrics => o = None) (map snd g)).
{ apply Forall_forall. intros o Ho. apply in_map_iff in Ho as ([pc o'] & <- & Hr). simpl.
  rewrite Eg in Hr. apply filter_In in Hr as [Hr Hc]. simpl in Hc.
  apply String.eqb_eq in Hc.
  apply merge_left_In in Hr as [Hpc Hm]. destruct o' as [b|]; trivial. exfalso.
  destruct Hm as [Hb Hm]. simpl in Hm. apply String.eqb_eq in Hm.
  apply policy_customer_map_In in Hpc as (q & Hq & Hqp & Hqc).
  apply claims_metrics_In in Hb as (cl & Hcl & Ecl).
  apply (Hno q cl); trivial.
  - apply filter_In. split; trivial. apply String.eqb_eq. congruence.
  - congruence. }
assert (Hall : forall f : ClaimsMetrics -> float,
           Forall (fun y => y = nan) (map (Np.col f) (map snd g))).
{ intros f. apply Forall_forall. intros y Hy. apply in_map_iff in Hy as (o & <- & Ho).
  rewrite Forall_forall in Hnone. now rewrite (Hnone o Ho). }
split; [|split]; apply sum_all_missing, Hall.
Qed.

(** No fraud rollup exists for such a customer. *)
Lemma customer_fraud_no_claims (policies : list Policy.t) (claims : list Claim.t)
      (fraud : list Fraud.t) (k : string) :
  (forall q cl, In q (policies_of k policies) -> In cl claims ->
                Claim.policy_id cl <> Policy.policy_id q) ->
  find (Np.key_matches cf_customer_id (Some k))
       (customer_fraud_metrics policies claims fraud) = None.
Proof.
intros Hno. apply find_none_iff. intros b Hb. simpl. apply String.eqb_neq. intros Ek.
unfold customer_fraud_metrics in Hb. apply in_map_iff in Hb as ([k' g] & <- & Hg).
simpl in Ek. subst k'.
match type of Hg with In _ (Np.groupby ?key ?rows) =>
  destruct (groupby_keys key rows) as [_ Hk] end.
apply (in_map fst) in Hg. apply Hk in Hg as ([cfrow opc] & Hr & Ekey). simpl in Ekey.
destruct opc as [[pid k']|]; [|discriminate]. simpl in Ekey. injection Ekey as ->.
apply merge_left_In in Hr as [Hcf [Hpc Hm]]. simpl in Hm. apply String.eqb_eq in Hm.
destruct cfrow as [pair ofm]. apply merge_left_In in Hcf as [Hpair _].
apply in_map_iff in Hpair as (cl & <- & Hcl). simpl in Hm.
apply policy_customer_map_In in Hpc as (q & Hq & Hqp & Hqc). simpl in Hqp, Hqc.
apply (Hno q cl); trivial.
- apply filter_In. split; trivial. now apply String.eqb_eq.
- congruence.
Qed.

Lemma unique_by_keeps {A} (eqb : A -> A -> bool) (l : list A) (x : A) :
  (forall a b, eqb a b = true -> a = b) ->
  In x l -> In x (Np.unique_by eqb l).
Proof.
intros Heq. induction l as [|y l IH]; simpl; trivial.
intros [->|H]; [now left|].
destruct (eqb x y) eqn:E.
- left. symmetry. now apply Heq.
- right. apply filter_In. split; [now apply IH|]. now rewrite E.
Qed.

Lemma merge_left_keeps {A B} (kl : A -> option string) (kr : B -> string)
      (left : list A) (right : list B) (a : A) :
  In a left -> exists ob, In (a, ob) (Np.merge_left kl kr left right).
Proof.
intros Ha. unfold Np.merge_left.
destruct (filter (Np.key_matches kr (kl a)) right) as [|b ms] eqn:E.
- exists None. apply in_flat_map. exists a. split; trivial. rewrite E. now left.
- exists (Some b). apply in_flat_map. exists a. split; trivial. rewrite E. now left.
Qed.

(** Every customer with a policy has a claim rollup, with or without
    claims. *)
Lemma customer_claims_of_insured (policies : list Policy.t) (claims : list Claim.t)
      (k : string) :
  policies_of k policies <> [] ->
  find (Np.key_matches cc_customer_id (Some k)) (customer_claims policies claims) <> None.
Proof.
intros Hown. unfold customer_claims.
rewrite (find_rollup _ _ _ cc_customer_id k) by reflexivity.
match goal with |- context [existsb ?f ?l] => replace (existsb f l) with true end;
  [discriminate|].
symmetry. apply existsb_exists.
destruct (policies_of k policies) as [|q own] eqn:E; [congruence|].
assert (Hq : In q (policies_of k policies)) by (rewrite E; now left).
apply filter_In in Hq as [Hq Hk]. apply String.eqb_eq in Hk.
assert (Hpc : In (Policy.policy_id q, Policy.customer_id q) (policy_customer_map policies)).
{ unfold policy_customer_map. apply unique_by_keeps.
  - intros [a1 a2] [b1 b2] H. simpl in H. apply andb_prop in H as [H1 H2].
    apply String.eqb_eq in H1, H2. congruence.
  - apply (in_map (fun p => (Policy.policy_id p, Policy.customer_id p))), Hq. }
destruct (merge_left_keeps (fun pc : string * string => Some (fst pc)) cm_policy_id
                           _ (claims_metrics claims) _ Hpc) as [ob Hob].
exists ((Policy.policy_id q, Policy.customer_id q), ob). split; [exact Hob|].
simpl. rewrite Hk. apply String.eqb_refl.
Qed.

(** A customer none of whose policies has a claim (a customer without
    policies is one) has 0 in total_claims, no fraud_detected flag and no
    fraud rate.  Its avg_claim_amount is 0 when the claim table has a row
    and missing when that table holds its header only; its detection_count
    and avg_confidence are 0 when the fraud table has a row and missing
    otherwise; its total_claimed_amount is 0 when it has a policy or the
    claim table has a row, and missing otherwise. *)
Theorem no_claims_zero_columns (i : Inputs) (w : World) (row : Analytics.t) :
  In row (fst (main i w)) ->
  (forall q cl,
      In q (policies_of (Analytics.customer_id row) (policies i)) -> In cl (claims i) ->
      Claim.policy_id cl <> Policy.policy_id q) ->
  Analytics.total_claims row = 0 /\
  Analytics.fraud_detected row = None /\
  is_nan (Analytics.fraud_rate row) = true /\
  Analytics.avg_claim_amount row = (if has_rows (claims i) then 0 else nan) /\
  Analytics.detection_count row = (if has_rows (fraud i) then 0 else nan) /\
  Analytics.avg_confidence row = (if has_rows (fraud i) then 0 else nan) /\
  Analytics.total_claimed_amount row
  = (if has_rows (policies_of (Analytics.customer_id row) (policies i))
        || has_rows (claims i)
     then 0 else nan).
Proof.
intros Hrow. rewrite main_rows in Hrow. apply in_map_iff in Hrow as (c & <- & _).
change (Analytics.customer_id (final_row _ _)) with (Customer.customer_id c).
intros Hno.
assert (H6 : forall r, r = final_row (select_dtypes (fst (preprocess_data i w)))
                ({| base := c;
                    customer_tenure_days :=
                      days_since (clock w (reads w)) (Customer.registration_date c) |},
                 find (Np.key_matches (fun r => pm_customer_id (cmr_policy r))
                                      (Some (Customer.customer_id c)))
                      (customer_metrics (fst (preprocess_data i w)))) ->
            Analytics.total_claims r = 0 /\
            Analytics.fraud_detected r = None /\
            Analytics.avg_claim_amount r = (if has_rows (claims i) then 0 else nan) /\
            Analytics.detection_count r = (if has_rows (fraud i) then 0 else nan) /\
            Analytics.avg_confidence r = (if has_rows (fraud i) then 0 else nan) /\
            Analytics.total_claimed_amount r
            = (if has_rows (policies_of (Customer.customer_id c) (policies i))
                  || has_rows (claims i)
               then 0 else nan)).
{ intros r ->. rewrite customer_metrics_find, select_dtypes_preprocess.
  destruct (policies_of (Customer.customer_id c) (policies i)) as [|q own] eqn:E.
  - destruct (has_rows (claims i)), (has_rows (fraud i)); now repeat split.
  - cbv zeta. rewrite <- E in *.
    rewrite (customer_fraud_no_claims (policies i) (claims i) (fraud i) _ Hno).
    pose proof (customer_claims_of_insured (policies i) (claims i)
                                           (Customer.customer_id c)) as Hsome.
    destruct (find (Np.key_matches cc_customer_id (Some (Customer.customer_id c)))
                   (customer_claims (policies i) (claims i))) as [cc|] eqn:F.
    + destruct (customer_claims_no_claims _ _ _ cc Hno F) as (H1 & H2 & H3).
      unfold final_row, cmr_claims, cmr_fraud, Np.col. simpl.
      rewrite H1, H2, H3, E. simpl.
      destruct (has_rows (claims i)), (has_rows (fraud i)); now repeat split.
    + exfalso. apply Hsome; trivial. rewrite E. discriminate. }
match goal with |- context [Analytics.total_claims ?r] => set (r0 := r) end.
destruct (H6 r0 eq_refl) as (H1 & H2 & H3 & H4 & H5 & H7).
split; [exact H1|]. split; [exact H2|].
split; [|split; [exact H3|split; [exact H4|split; [exact H5|exact H7]]]].
change (Analytics.fraud_rate r0)
  with (Analytics.detection_count r0 / Np.replace_zero_nan (Analytics.total_claims r0)).
rewrite H1. change (Np.replace_zero_nan 0) with nan. now rewrite div_nan_r.
Qed.

Lemma no_claims_zero_columns_witness :
  exists row,
    In row (fst (main MoreExamples.no_claims_on_file Examples.world1)) /\
    Analytics.customer_id row = "A" /\
    Analytics.total_policies row = 1 /\
    Analytics.total_claims row = 0 /\
    Analytics.total_claimed_amount row = 0 /\
    Analytics.avg_claim_amount row = nan /\
    Analytics.detection_count row = nan /\
    Analytics.avg_confidence row = nan.
Proof.
eexists. split; [|split; [|split]].
- simpl. left. reflexivity.
- reflexivity.
- reflexivity.
- assert (Hno : forall q cl,
             In q (policies_of "A" (policies MoreExamples.no_claims_on_file)) ->
             In cl (claims MoreExamples.no_claims_on_file) ->
             Claim.policy_id cl <> Policy.policy_id q) by (intros q cl _ []).
  destruct (no_claims_zero_columns MoreExamples.no_claims_on_file Examples.world1 _
                                   (or_introl eq_refl) Hno)
    as (H1 & _ & _ & H2 & H3 & H4 & H5).
  split; [exact H1|]. split; [exact H5|]. split; [exact H2|]. split; [exact H3|exact H4].
Defined.
End Stage1Extras.

(** * The reporting scripts *)

Section Reporting.
Local Open Scope string_scope.
Local Open Scope float_scope.

Lemma lex_before_total (keys : list (nat * bool)) (a b : list cell) :
  Report.lex_before keys a b = true \/ Report.lex_before keys b a = true.
Proof.
induction keys as [|[i asc] keys IH]; simpl; [now left|].
destruct (before_total asc (Pd.num_at i a) (Pd.num_at i b)) as [H|H]; rewrite H.
- destruct (Pd.before asc (Pd.num_at i b) (Pd.num_at i a)); auto.
- destruct (Pd.before asc (Pd.num_at i a) (Pd.num_at i b)); auto.
Qed.

Lemma lex_before_trans (keys : list (nat * bool)) (a b c : list cell) :
  Report.lex_before keys a b = true -> Report.lex_before keys b c = true ->
  Report.lex_before keys a c = true.
Proof.
induction keys as [|[i asc] keys IH]; simpl; trivial.
set (x := Pd.num_at i a). set (y := Pd.num_at i b). set (z := Pd.num_at i c).
destruct (Pd.before asc x y) eqn:Hxy; [|discriminate].
destruct (Pd.before asc y z) eqn:Hyz; [|intros _; discriminate].
rewrite (before_trans asc x y z Hxy Hyz).
destruct (Pd.before asc z x) eqn:Hzx; trivial.
rewrite (before_trans asc y z x Hyz Hzx), (before_trans asc z x y Hzx Hxy).
exact IH.
Qed.

(** The first key of the order decides. *)
Lemma lex_before_first (i : nat) (asc : bool) (keys : list (nat * bool)) (a b : list cell) :
  Report.lex_before ((i, asc) :: keys) a b = true ->
  Pd.before asc (Pd.num_at i a) (Pd.num_at i b) = true.
Proof.
simpl. destruct (Pd.before asc (Pd.num_at i a) (Pd.num_at i b)); congruence.
Qed.

Lemma StronglySorted_app {A} (R : A -> A -> Prop) (l1 l2 : list A) :
  StronglySorted R (l1 ++ l2) ->
  StronglySorted R l1 /\ forall a b, In a l1 -> In b l2 -> R a b.
Proof.
induction l1 as [|x l1 IH]; simpl; intros H.
- split; [constructor|contradiction].
- inversion H as [|? ? Hs Hx]; subst. destruct (IH Hs) as [H1 H2]. split.
  + constructor; trivial. apply Forall_forall. intros y Hy.
    rewrite Forall_forall in Hx. apply Hx, in_or_app. now left.
  + intros a b [<-|Ha] Hb; auto.
    rewrite Forall_forall in Hx. apply Hx, in_or_app. now right.
Qed.

Lemma traverse_Forall2 {A B} (f : A -> option B) (l : list A) (l' : list B) :
  Pd.traverse f l = Some l' -> Forall2 (fun b a => f a = Some b) l' l.
Proof.
revert l'. induction l as [|a l IH]; simpl; intros l' H.
- injection H as <-. constructor.
- destruct (f a) as [b|] eqn:E; [|discriminate].
  destruct (Pd.traverse f l) as [bs|]; [|discriminate].
  injection H as <-. constructor; auto.
Qed.

(** The head of a sorted frame and what it leaves out. *)
Lemma head_of_sorted (le : list cell -> list cell -> bool) (n : nat)
      (rows : list (list cell)) :
  (forall a b, le a b = true \/ le b a = true) ->
  (forall a b c, le a b = true -> le b c = true -> le a c = true) ->
  let top := firstn n (Np.sort_by le rows) in
  let rest := skipn n (Np.sort_by le rows) in
  Permutation (top ++ rest) rows /\
  List.length top = Nat.min n (List.length rows) /\
  StronglySorted (fun a b => le a b = true) top /\
  forall a b, In a top -> In b rest -> le a b = true.
Proof.
intros Htot Htrans top rest. subst top rest.
pose proof (sort_by_sorted le Htot Htrans rows) as Hs.
rewrite <- (firstn_skipn n (Np.sort_by le rows)) in Hs.
apply StronglySorted_app in Hs as [H1 H2].
split; [|split; [|split]]; trivial.
- rewrite firstn_skipn. apply sort_by_perm.
- rewrite length_firstn. now rewrite (Permutation_length (sort_by_perm le rows)).
Qed.

(** The three customers that [analyze_customers] reports are those with the
    lowest lifetime value: the table splits into the reported rows and the
    others, no row that is left out has a lower lifetime value than a
    reported one, and a row without a lifetime value is reported only when
    all the rows left out have none either.  Three rows are reported, or all
    of them when the table has fewer. *)
Theorem analyze_customers_reports_lowest_value (df : Frame) (res : AnalyzeSegments.Summary) :
  AnalyzeSegments.analyze_customers df = Some res ->
  exists top rest,
    Permutation (top ++ rest) (rows df) /\
    List.length top = Nat.min 3 (List.length (rows df)) /\
    Forall2 (fun l row => AnalyzeSegments.line df row = Some l)
            (AnalyzeSegments.top_risks res) top /\
    forall a b, In a top -> In b rest ->
                is_nan (row_num df "lifetime_value" b) = true \/
                (is_nan (row_num df "lifetime_value" a) = false /\
                 (row_num df "lifetime_value" a <=? row_num df "lifetime_value" b) = true).
Proof.
unfold AnalyzeSegments.analyze_customers, Report.sort_values_by, row_num. simpl.
destruct (Report.value_counts "segment" df) as [counts|]; [|discriminate].
destruct (Pd.index_of "lifetime_value" (columns df)) as [i1|]; [|discriminate]. simpl.
destruct (Pd.index_of "loss_ratio" (columns df)) as [i2|]; [|discriminate]. simpl.
set (keys := [(i1, true); (i2, false)]).
destruct (Pd.traverse _ _) as [ls|] eqn:T; [|discriminate]. intros [= <-]. simpl.
destruct (head_of_sorted (Report.lex_before keys) 3 (rows df)
                         (lex_before_total keys) (lex_before_trans keys))
  as (Hperm & Hlen & _ & Hord).
exists (firstn 3 (Np.sort_by (Report.lex_before keys) (rows df))),
       (skipn 3 (Np.sort_by (Report.lex_before keys) (rows df))).
split; [exact Hperm|]. split; [exact Hlen|]. split.
- apply traverse_Forall2 in T. exact T.
- intros a b Ha Hb. specialize (Hord a b Ha Hb).
  apply lex_before_first in Hord. unfold Pd.before in Hord.
  destruct (is_nan (Pd.num_at i1 b)); [now left|].
  destruct (is_nan (Pd.num_at i1 a)); simpl in Hord; [discriminate|]. right. now split.
Qed.
End Reporting.

Section ReportsOnPipeline.
Import CustomerAnalytics.
Local Open Scope string_scope.
Local Open Scope float_scope.

Lemma list_sum_perm (l l' : list nat) : Permutation l l' -> list_sum l = list_sum l'.
Proof. induction 1; simpl; lia. Qed.

Lemma count_once (ks : list string) (y : string) :
  NoDup ks -> In y ks ->
  list_sum (map (fun k => if String.eqb k y then 1%nat else 0%nat) ks) = 1%nat.
Proof.
induction 1 as [|k ks Hk Hn IH]; simpl; intros Hin; [contradiction|].
destruct (String.eqb_spec k y) as [->|Hne].
- f_equal. clear IH Hin. induction ks as [|k ks IH]; simpl; trivial.
  destruct (String.eqb_spec k y) as [->|_].
  + exfalso. apply Hk. now left.
  + apply IH.
    * intros H. apply Hk. now right.
    * now inversion Hn.
- destruct Hin as [->|Hin]; [congruence|]. now apply IH.
Qed.

Lemma list_sum_map_add {A} (f g : A -> nat) (l : list A) :
  (list_sum (map f l) + list_sum (map g l))%nat = list_sum (map (fun a => (f a + g a)%nat) l).
Proof. induction l as [|a l IH]; simpl; lia. Qed.

Lemma counts_add_up (ks xs : list string) :
  NoDup ks -> (forall x, In x xs -> In x ks) ->
  list_sum (map (fun k => List.length (filter (String.eqb k) xs)) ks) = List.length xs.
Proof.
intros Hn. induction xs as [|y xs IH]; intros Hin.
- simpl. clear. induction ks; simpl; trivial.
- transitivity
    (list_sum (map (fun k => if String.eqb k y then 1%nat else 0%nat) ks)
     + list_sum (map (fun k => List.length (filter (String.eqb k) xs)) ks))%nat.
  + rewrite list_sum_map_add. f_equal. apply map_ext. intros k. simpl.
    destruct (String.eqb k y); reflexivity.
  + rewrite (count_once ks y Hn) by (apply Hin; now left).
    rewrite IH by (intros x Hx; apply Hin; now right). reflexivity.
Qed.

(** [value_counts] lists every value once, with the number of its
    occurrences; the counts add up to the number of values. *)
Lemma value_counts_spec (xs : list string) :
  NoDup (map fst (Np.value_counts xs)) /\
  (forall s n, In (s, n) (Np.value_counts xs)
               <-> In s xs /\ n = List.length (filter (String.eqb s) xs)) /\
  list_sum (map snd (Np.value_counts xs)) = List.length xs.
Proof.
unfold Np.value_counts.
set (cmp := fun a b : string * nat => Nat.leb (snd b) (snd a)).
set (l := map (fun v => (v, List.length (filter (String.eqb v) xs)))
              (Np.unique_by String.eqb xs)).
pose proof (sort_by_perm cmp l) as Hp.
split; [|split].
- apply (Permutation_NoDup (l := map fst l)).
  + symmetry. now apply Permutation_map.
  + unfold l. rewrite map_map. simpl. rewrite map_id. apply unique_by_NoDup.
- intros s n. rewrite (Permutation_in' eq_refl Hp). unfold l. rewrite in_map_iff. split.
  + intros (v & [= <- <-] & Hv). split; [|reflexivity]. now apply (unique_by_In xs v).
  + intros [Hs ->]. exists s. split; trivial. now apply (unique_by_In xs s).
- rewrite (list_sum_perm _ _ (Permutation_map snd Hp)). unfold l. rewrite map_map. simpl.
  apply counts_add_up.
  + apply unique_by_NoDup.
  + intros x Hx. now apply unique_by_In.
Qed.

Lemma segment_of_label (lifetime_value risk_score : float) :
  In (segment_of lifetime_value risk_score)
     ["Premium Partner"; "Growth Prospect"; "Risk Management"; "Watch List"].
Proof.
rewrite segment_of_first_match.
repeat match goal with |- context [if ?b then _ else _] => destruct b end;
  simpl; auto.
Qed.

Lemma traverse_defined {A B} (f : A -> option B) (l : list A) :
  (forall a, In a l -> exists b, f a = Some b) ->
  exists l', Pd.traverse f l = Some l' /\ List.length l' = List.length l.
Proof.
induction l as [|a l IH]; simpl; intros H.
- now exists [].
- destruct (H a (or_introl eq_refl)) as [b ->].
  destruct IH as (l' & -> & Hl); [intros; apply H; now right|].
  exists (b :: l'). simpl. now rewrite Hl.
Qed.

Lemma In_firstn {A} (n : nat) (l : list A) (x : A) : In x (firstn n l) -> In x l.
Proof.
intros H. rewrite <- (firstn_skipn n l). apply in_or_app. now left.
Qed.

Lemma count_texts (s : string) (i : nat) (rows : list (list cell)) :
  List.length (filter (String.eqb s) (Report.texts_at i rows))
  = List.length (filter (fun row => match nth_error row i with
                                    | Some (CText s') => String.eqb s s'
                                    | _ => false
                                    end) rows).
Proof.
induction rows as [|row rows IH]; [reflexivity|].
change (Report.texts_at i (row :: rows))
  with ((match nth_error row i with
         | Some (CText s') => [s']
         | _ => []
         end ++ Report.texts_at i rows)%list).
rewrite filter_app, length_app, IH. cbn [filter].
destruct (nth_error row i) as [[s'| | | | |]|]; simpl; trivial.
destruct (String.eqb s s'); reflexivity.
Qed.

Lemma texts_at_output (l : list Segmented.t) :
  Report.texts_at 5 (map output_row l) = map segment l.
Proof.
unfold Report.texts_at. rewrite flat_map_concat_map, map_map. simpl.
induction l as [|s l IH]; simpl; trivial. now rewrite IH.
Qed.

Lemma numeric_column_true (i : nat) (rows : list (list cell)) :
  rows <> [] ->
  (forall row, In row rows -> exists x, nth_error row i = Some (CNum x)) ->
  Report.numeric_column i rows = true.
Proof.
intros Hne H. destruct rows as [|r0 rows]; [congruence|].
unfold Report.numeric_column. apply forallb_forall.
intros row Hr. destruct (H row Hr) as [x ->]. reflexivity.
Qed.

(** On a table without customers the second summary stops: the risk score
    of a file without rows is not a numeric column. *)
Lemma generate_summary_without_customers
      (i : GenerateCustomerAnalytics.Inputs) (w : World) (out : Frame) :
  GenerateCustomerAnalytics.customers i = [] ->
  fst (Pipeline.run i w) = Some out ->
  Summary.generate_summary out = None.
Proof.
intros Hc. unfold Pipeline.run.
pose proof (main_rows i w) as Hm. rewrite Hc in Hm.
destruct (GenerateCustomerAnalytics.main i w) as [table w'] eqn:E. simpl in *.
subst table. intros [= <-]. reflexivity.
Qed.

(** Both reporting scripts run on the table that the pipeline writes for a
    customer table with at least one row: none of the columns they read is
    missing, and the risk score is a numeric column.  They list three
    customers, or all when there are fewer; the segment counts they print
    are the same, name only the four segments, each with the number of its
    customers (at least one), and add up to the number of customers. *)
Theorem reports_run_on_pipeline_output (i : GenerateCustomerAnalytics.Inputs) (w : World) :
  GenerateCustomerAnalytics.customers i <> [] ->
  exists out res sm,
    fst (Pipeline.run i w) = Some out /\
    AnalyzeSegments.analyze_customers out = Some res /\
    Summary.generate_summary out = Some sm /\
    List.length (AnalyzeSegments.top_risks res)
    = Nat.min 3 (List.length (GenerateCustomerAnalytics.customers i)) /\
    List.length (Summary.high_risk sm)
    = Nat.min 3 (List.length (GenerateCustomerAnalytics.customers i)) /\
    Summary.segment_counts sm = AnalyzeSegments.segment_counts res /\
    NoDup (map fst (AnalyzeSegments.segment_counts res)) /\
    list_sum (map snd (AnalyzeSegments.segment_counts res))
    = List.length (GenerateCustomerAnalytics.customers i) /\
    forall s n,
      In (s, n) (AnalyzeSegments.segment_counts res) ->
      In s ["Premium Partner"; "Growth Prospect"; "Risk Management"; "Watch List"] /\
      (1 <= n)%nat /\
      n = List.length (filter (fun row => match nth_error row 5 with
                                         | Some (CText s') => String.eqb s s'
                                         | _ => false
                                         end) (rows out)).
Proof.
intros Hcust.
assert (Hlen : List.length (fst (GenerateCustomerAnalytics.main i w))
               = List.length (GenerateCustomerAnalytics.customers i))
  by now rewrite main_rows, length_map.
unfold Pipeline.run.
destruct (GenerateCustomerAnalytics.main i w) as [table w'] eqn:E. simpl in *.
assert (Htable : table <> []).
{ intros ->. destruct (GenerateCustomerAnalytics.customers i); [congruence|discriminate]. }
rewrite main_eq. rewrite analyse_map. rewrite <- Hlen. clear Hlen E Hcust.
set (srt := Np.sort_by (fun a b => Pd.before false (row_lifetime_value a)
                                             (row_lifetime_value b))
                       (map output_row (map analyse_row table))).
assert (Hp : Permutation srt (map output_row (map analyse_row table)))
  by apply sort_by_perm.
assert (Hrow : forall (l : list (list cell)) row,
           (forall r, In r l -> In r srt) -> In row l ->
           exists s, row = output_row s).
{ intros l row Hl Hr. apply Hl in Hr. apply (Permutation_in _ Hp) in Hr.
  apply in_map_iff in Hr as (s & <- & _). eauto. }
set (out := {| columns := output_cols; rows := srt |}).
set (keys := [(2%nat, true); (3%nat, false)]).
set (top1 := firstn 3 (Np.sort_by (Report.lex_before keys) srt)).
set (top2 := firstn 3 (Np.sort_by (fun a b => Pd.before false (Pd.num_at 4 a) (Pd.num_at 4 b))
                                  srt)).
destruct (traverse_defined
            (AnalyzeSegments.line {| columns := output_cols; rows := top1 |}) top1)
  as (l1 & T1 & L1).
{ intros row Hr. destruct (Hrow top1 row) as [s ->]; trivial; [|eexists; reflexivity].
  intros r Hin. apply In_firstn in Hin.
  eapply Permutation_in; [apply sort_by_perm|exact Hin]. }
destruct (traverse_defined
            (Summary.line {| columns := output_cols; rows := top2 |}) top2)
  as (l2 & T2 & L2).
{ intros row Hr. destruct (Hrow top2 row) as [s ->]; trivial; [|eexists; reflexivity].
  intros r Hin. apply In_firstn in Hin.
  eapply Permutation_in; [apply sort_by_perm|exact Hin]. }
set (counts := Np.value_counts (Report.texts_at 5 srt)).
exists out, {| AnalyzeSegments.segment_counts := counts; AnalyzeSegments.top_risks := l1 |},
       {| Summary.segment_counts := counts; Summary.high_risk := l2 |}.
assert (Hx : Permutation (Report.texts_at 5 srt) (map segment (map analyse_row table))).
{ rewrite <- texts_at_output. unfold Report.texts_at. now apply Permutation_flat_map. }
destruct (value_counts_spec (Report.texts_at 5 srt)) as (Hn & Hin & Hsum).
split; [reflexivity|]. split; [|split].
- unfold AnalyzeSegments.analyze_customers. 
  change (Report.value_counts "segment" out) with (Some counts). cbv iota.
  change (Report.sort_values_by [("lifetime_value", true); ("loss_ratio", false)] out)
    with (Some {| columns := output_cols;
                  rows := Np.sort_by (Report.lex_before keys) srt |}).
  cbv iota zeta. unfold Report.head. cbn [columns rows].
  fold top1. now rewrite T1.
- unfold Summary.generate_summary.
  change (Report.value_counts "segment" out) with (Some counts). cbv iota.
  assert (Hnum : Report.numeric_column 4 srt = true).
  { apply numeric_column_true.
    - intros Hs. rewrite Hs in Hp. apply Permutation_nil in Hp.
      destruct table; [congruence|discriminate].
    - intros row Hr. destruct (Hrow srt row) as [s ->]; trivial.
      eexists. reflexivity. }
  replace (Report.nlargest 3 "risk_score" out)
    with (Some {| columns := output_cols; rows := top2 |}).
  2:{ unfold Report.nlargest.
      change (Pd.index_of "risk_score" (columns out)) with (Some 4%nat). cbv iota.
      change (rows out) with srt. now rewrite Hnum. }
  cbv iota. cbn [columns rows]. now rewrite T2.
- simpl. split; [|split; [|split; [|split; [|split]]]]; trivial.
  + rewrite L1. unfold top1. rewrite length_firstn.
    rewrite (Permutation_length (sort_by_perm _ _)), (Permutation_length Hp).
    now rewrite !length_map.
  + rewrite L2. unfold top2. rewrite length_firstn.
    rewrite (Permutation_length (sort_by_perm _ _)), (Permutation_length Hp).
    now rewrite !length_map.
  + fold counts in Hsum. rewrite Hsum, (Permutation_length Hx). now rewrite !length_map.
  + intros s n Hsn. apply Hin in Hsn as [Hs ->]. split; [|split].
    * apply (Permutation_in _ Hx) in Hs.
      apply in_map_iff in Hs as (sg & <- & Hsg).
      apply in_map_iff in Hsg as (r & <- & _). apply segment_of_label.
    * assert (Hf : In s (filter (String.eqb s) (Report.texts_at 5 srt))).
      { apply filter_In. split; trivial. apply String.eqb_refl. }
      destruct (filter (String.eqb s) (Report.texts_at 5 srt)); [contradiction|].
      simpl. lia.
    * apply count_texts.
Qed.

Lemma reports_run_on_pipeline_output_witness :
  GenerateCustomerAnalytics.customers Examples.tables <> [] /\
  exists out res sm,
    fst (Pipeline.run Examples.tables Examples.world1) = Some out /\
    AnalyzeSegments.analyze_customers out = Some res /\
    Summary.generate_summary out = Some sm /\
    List.length (Summary.high_risk sm) = 3%nat /\
    Summary.segment_counts sm = AnalyzeSegments.segment_counts res.
Proof.
assert (H : GenerateCustomerAnalytics.customers Examples.tables <> []) by discriminate.
split; [exact H|].
destruct (reports_run_on_pipeline_output Examples.tables Examples.world1 H)
  as (out & res & sm & H1 & H2 & H3 & _ & H4 & H5 & _).
exists out, res, sm. repeat (split; trivial).
Defined.
End ReportsOnPipeline.

Section Summaries.
Import CustomerAnalytics.
Local Open Scope string_scope.
Local Open Scope float_scope.

Lemma analyze_customers_reports_lowest_value_witness :
  exists res top rest,
    AnalyzeSegments.analyze_customers MoreExamples.segments = Some res /\
    Permutation (top ++ rest) (rows MoreExamples.segments) /\
    List.length top = 3%nat /\
    map AnalyzeSegments.lifetime_value (AnalyzeSegments.top_risks res) = [-3000; -700; 1500].
Proof.
eexists.
destruct (analyze_customers_reports_lowest_value MoreExamples.segments _ eq_refl)
  as (top & rest & Hp & Hl & _).
exists top, rest. split; [reflexivity|]. split; [exact Hp|]. split; [exact Hl|].
reflexivity.
Defined.

(** The three customers that [generate_summary] reports are those with the
    highest risk scores: no row that is left out has a higher score than a
    reported one, and a customer whose score is missing is reported only when
    all the rows left out have no score either.  Three rows are reported, or
    all of them when the table has fewer. *)
Theorem generate_summary_reports_highest_risk (f : Frame) (sm : Summary.t) :
  Summary.generate_summary f = Some sm ->
  exists top rest,
    Permutation (top ++ rest) (rows f) /\
    List.length top = Nat.min 3 (List.length (rows f)) /\
    Forall2 (fun l row => Summary.line f row = Some l) (Summary.high_risk sm) top /\
    forall a b, In a top -> In b rest ->
                is_nan (row_num f "risk_score" b) = true \/
                (is_nan (row_num f "risk_score" a) = false /\
                 (row_num f "risk_score" b <=? row_num f "risk_score" a) = true).
Proof.
unfold Summary.generate_summary, Report.nlargest, Pd.sort_values, row_num.
destruct (Report.value_counts "segment" f) as [counts|]; [|discriminate].
destruct (Pd.index_of "risk_score" (columns f)) as [i|]; [|discriminate].
destruct (Report.numeric_column i (rows f)); [|discriminate]. simpl.
set (le := fun a b => Pd.before false (Pd.num_at i a) (Pd.num_at i b)).
destruct (Pd.traverse _ _) as [ls|] eqn:T; [|discriminate]. intros [= <-]. simpl.
destruct (head_of_sorted le 3 (rows f)) as (Hperm & Hlen & _ & Hord).
{ intros a b. apply before_total. }
{ intros a b c. apply before_trans. }
exists (firstn 3 (Np.sort_by le (rows f))), (skipn 3 (Np.sort_by le (rows f))).
split; [exact Hperm|]. split; [exact Hlen|]. split.
- apply traverse_Forall2 in T. exact T.
- intros a b Ha Hb. specialize (Hord a b Ha Hb). unfold le, Pd.before in Hord.
  destruct (is_nan (Pd.num_at i b)); [now left|].
  destruct (is_nan (Pd.num_at i a)); simpl in Hord; [discriminate|]. right. now split.
Qed.

Lemma generate_summary_reports_highest_risk_witness :
  exists sm top rest,
    Summary.generate_summary MoreExamples.segments = Some sm /\
    Permutation (top ++ rest) (rows MoreExamples.segments) /\
    List.length top = 3%nat /\
    map Summary.risk_score (Summary.high_risk sm) = [62; 57; 16.5].
Proof.
eexists.
destruct (generate_summary_reports_highest_risk MoreExamples.segments _ eq_refl)
  as (top & rest & Hp & Hl & _).
exists top, rest. split; [reflexivity|]. split; [exact Hp|]. split; [exact Hl|].
reflexivity.
Defined.

Lemma percent_defined (loss_ratio : float) : is_nan (Summary.percent loss_ratio) = false.
Proof.
unfold Summary.percent. destruct (is_nan loss_ratio) eqn:E; simpl; [reflexivity|].
eapply mul_finite_not_nan; [vm_compute; reflexivity|exact E].
Qed.

(** The loss ratio that [generate_summary] prints is always a number: the
    ratio as a percentage, and 0 for a customer whose loss ratio is
    missing. *)
Theorem printed_loss_ratio_defined (f : Frame) (sm : Summary.t) :
  Summary.generate_summary f = Some sm ->
  Forall (fun l => is_nan (Summary.loss_ratio_percent l) = false) (Summary.high_risk sm) /\
  Forall2 (fun l row =>
             Summary.loss_ratio_percent l
             = if is_nan (row_num f "loss_ratio" row) then 0
               else row_num f "loss_ratio" row * 100)
          (Summary.high_risk sm)
          (firstn 3 (Np.sort_by (fun a b => Pd.before false (row_num f "risk_score" a)
                                                       (row_num f "risk_score" b))
                                (rows f))).
Proof.
unfold Summary.generate_summary, Report.nlargest, Pd.sort_values, row_num.
destruct (Report.value_counts "segment" f) as [counts|]; [|discriminate].
destruct (Pd.index_of "risk_score" (columns f)) as [i|]; [|discriminate].
destruct (Report.numeric_column i (rows f)); [|discriminate]. simpl.
destruct (Pd.traverse _ _) as [ls|] eqn:T; [|discriminate]. intros [= <-]. simpl.
apply traverse_Forall2 in T.
assert (Hl : forall l row,
           Summary.line
             {| columns := columns f;
                rows := firstn 3 (Np.sort_by
                                    (fun a b => Pd.before false (Pd.num_at i a) (Pd.num_at i b))
                                    (rows f)) |} row = Some l ->
           Summary.loss_ratio_percent l
           = Summary.percent (match Pd.index_of "loss_ratio" (columns f) with
                              | Some j => Pd.num_at j row
                              | None => nan
                              end)).
{ intros l row. unfold Summary.line, Report.getitem_row. cbn [columns].
  destruct (Pd.index_of "customer_id" (columns f)) as [i0|]; [|discriminate].
  destruct (nth_error row i0) as [c0|]; [|discriminate].
  destruct (Pd.index_of "risk_score" (columns f)) as [i1|]; [|discriminate].
  destruct (nth_error row i1) as [c1|]; [|discriminate].
  destruct (Pd.index_of "segment" (columns f)) as [i2|]; [|discriminate].
  destruct (nth_error row i2) as [c2|]; [|discriminate].
  destruct (Pd.index_of "lifetime_value" (columns f)) as [i3|]; [|discriminate].
  destruct (nth_error row i3) as [c3|]; [|discriminate].
  destruct (Pd.index_of "loss_ratio" (columns f)) as [j|]; [|discriminate].
  unfold Pd.num_at.
  destruct (nth_error row j) as [c4|]; [|discriminate].
  intros [= <-]. simpl. destruct c4; reflexivity. }
split.
- apply Forall_forall. intros l Hin.
  assert (exists row, Summary.line
             {| columns := columns f;
                rows := firstn 3 (Np.sort_by
                                    (fun a b => Pd.before false (Pd.num_at i a) (Pd.num_at i b))
                                    (rows f)) |} row = Some l) as [row Hrow].
  { clear Hl. induction T as [|l0 row0 ls0 rows0 H0 _ IH]; [contradiction|].
    destruct Hin as [->|Hin]; eauto. }
  rewrite (Hl l row Hrow). apply percent_defined.
- eapply Forall2_impl; [|exact T]. intros l row H. rewrite (Hl l row H).
  unfold Summary.percent.
  destruct (is_nan _); reflexivity.
Qed.

Lemma printed_loss_ratio_defined_witness :
  exists sm,
    Summary.generate_summary MoreExamples.segments = Some sm /\
    map Summary.loss_ratio_percent (Summary.high_risk sm) = [400; 50; 25] /\
    Forall (fun l => is_nan (Summary.loss_ratio_percent l) = false) (Summary.high_risk sm).
Proof.
eexists. split; [reflexivity|]. split; [reflexivity|].
apply (printed_loss_ratio_defined MoreExamples.segments). reflexivity.
Defined.

(** The table that [main] saves has eleven columns and a row for every row
    of the file it loaded, and no value is missing in its columns
    total_claims, total_claim_amount, fraud_claims and policy_tenure_days: a
    missing count, amount or tenure has become 0. *)
Theorem output_defaults_filled (file : list Analytics.t) (out : Frame) :
  main file = Some out ->
  List.length (columns out) = 11%nat /\
  List.length (rows out) = List.length file /\
  forall row, In row (rows out) ->
              is_nan (row_num out "total_claims" row) = false /\
              is_nan (row_num out "total_claim_amount" row) = false /\
              is_nan (row_num out "fraud_claims" row) = false /\
              is_nan (row_num out "policy_tenure_days" row) = false.
Proof.
rewrite main_eq. intros [= <-]. split; [reflexivity|]. split.
- simpl. rewrite (Permutation_length (sort_by_perm _ _)), analyse_map.
  now rewrite !length_map.
- intros row Hrow. simpl in Hrow.
  apply (Permutation_in _ (sort_by_perm _ _)) in Hrow.
  rewrite analyse_map, map_map in Hrow. apply in_map_iff in Hrow as (r & <- & _).
  repeat split; apply fillna_not_nan.
Qed.

Lemma output_defaults_filled_witness :
  exists out,
    main MoreExamples.sparse = Some out /\
    List.length (rows out) = 2%nat /\
    map (fun row => row_num out "total_claims" row) (rows out) = [1; 0].
Proof.
eexists. split; [reflexivity|]. split.
- apply (output_defaults_filled MoreExamples.sparse). reflexivity.
- reflexivity.
Defined.
End Summaries.

Section AcrossStages.
Import GenerateCustomerAnalytics CustomerAnalytics.
Local Open Scope string_scope.
Local Open Scope float_scope.

Lemma zero_times_not_positive (x y : float) : (x =? 0) = true -> (0 <? x * y) = false.
Proof.
rewrite eqb_spec, ltb_spec, mul_spec. change (Prim2SF 0) with (S754_zero false).
destruct (Prim2SF x) as [sx|[]| |[] mx ex]; try discriminate; intros _;
  destruct (Prim2SF y) as [sy|sy| |sy my ey]; reflexivity.
Qed.

Lemma filter_nothing {A} (f : A -> bool) (l : list A) :
  (forall a, In a l -> f a = false) -> filter f l = [].
Proof.
induction l as [|a l IH]; simpl; intros H; trivial.
rewrite (H a) by now left. apply IH. intros; apply H; now right.
Qed.

(** A premium sum that is not above 0 leaves the row on the "Watch List",
    without loss ratio and without risk score. *)
Lemma no_premium_watch_list (r : Analytics.t) :
  F64.gtb (annual_premium_sum (analyse_row r)) 0 = false ->
  is_nan (loss_ratio (analyse_row r)) = true /\
  is_nan (risk_score (analyse_row r)) = true /\
  segment (analyse_row r) = "Watch List".
Proof.
intros H.
assert (Hl : loss_ratio (analyse_row r) = nan).
{ unfold loss_ratio; simpl. unfold annual_premium_sum in H; simpl in H.
  unfold Np.where_. now rewrite H. }
assert (Hr : risk_score (analyse_row r) = nan).
{ apply (risk_score_nan (lifetime_of (analyse_row r))).
  fold (loss_ratio (analyse_row r)). now rewrite Hl. }
rewrite Hl, Hr. repeat split.
unfold segment, analyse_row, assign_segments_row; simpl.
unfold risk_score, analyse_row in Hr; simpl in Hr.
unfold segment_of. now rewrite Hr, conditions_nan.
Qed.

(** A customer none of whose policies is active (a customer without
    policies is one) comes out of the pipeline without loss ratio and without
    risk score, on the "Watch List", whatever the claims and the fraud
    detections on the policies.  Its active_policies is 0, or missing when
    the policy table holds its header only. *)
Theorem no_active_policy_watch_list (i : Inputs) (w : World) (row : Analytics.t) :
  In row (fst (GenerateCustomerAnalytics.main i w)) ->
  (forall q, In q (policies_of (Analytics.customer_id row) (policies i)) ->
             Policy.status q <> "ACTIVE") ->
  Analytics.active_policies row = (if has_rows (policies i) then 0 else nan) /\
  is_nan (loss_ratio (analyse_row row)) = true /\
  is_nan (risk_score (analyse_row row)) = true /\
  segment (analyse_row row) = "Watch List".
Proof.
intros Hrow. rewrite main_rows in Hrow. apply in_map_iff in Hrow as (c & <- & _).
change (Analytics.customer_id (final_row _ _)) with (Customer.customer_id c).
intros Hno.
match goal with |- context [final_row ?d ?x] => set (r := final_row d x) end.
assert (Ha : Analytics.active_policies r = if has_rows (policies i) then 0 else nan).
{ unfold r. rewrite customer_metrics_find, select_dtypes_preprocess.
  destruct (policies_of (Customer.customer_id c) (policies i)) as [|q own] eqn:E.
  - destruct (has_rows (policies i)); reflexivity.
  - cbv zeta. rewrite <- E.
    replace (filter (fun q0 => String.eqb (Policy.status q0) "ACTIVE")
                    (policies_of (Customer.customer_id c) (policies i)))
      with (@nil Policy.t).
    + assert (Hq : In q (policies i)).
      { assert (H : In q (policies_of (Customer.customer_id c) (policies i)))
          by (rewrite E; now left).
        apply filter_In in H. apply H. }
      destruct (policies i); [contradiction|reflexivity].
    + symmetry. apply filter_nothing. intros p Hp. apply String.eqb_neq.
      rewrite E in Hp. now apply Hno. }
split; [exact Ha|].
apply no_premium_watch_list. unfold F64.gtb.
change (annual_premium_sum (analyse_row r))
  with (Analytics.active_policies r * Analytics.avg_annual_premium r).
rewrite Ha. destruct (has_rows (policies i)).
- now apply zero_times_not_positive.
- rewrite mul_nan_l. apply ltb_nan_r.
Qed.

Lemma no_active_policy_watch_list_witness :
  exists row,
    In row (fst (GenerateCustomerAnalytics.main Examples.tables Examples.world1)) /\
    Analytics.customer_id row = "C" /\
    Analytics.detection_count row = 2 /\
    Analytics.active_policies row = 0 /\
    segment (analyse_row row) = "Watch List".
Proof.
eexists. split; [|split; [|split]].
- simpl. right. right. left. reflexivity.
- reflexivity.
- reflexivity.
- assert (Hno : forall q, In q (policies_of "C" (policies Examples.tables)) ->
                          Policy.status q <> "ACTIVE").
  { intros q Hq. simpl in Hq. destruct Hq as [<-|[]]. discriminate. }
  destruct (no_active_policy_watch_list Examples.tables Examples.world1 _
              (or_intror (or_intror (or_introl eq_refl))) Hno) as (H1 & _ & _ & H2).
  split; [exact H1|exact H2].
Defined.
End AcrossStages.
